(** * BHA payment-standards ETL scripts: a shallow embedding

    The four scripts under [scripts/] (a fixed-URL pipeline, a CKAN
    catalog pipeline, a page-scan pipeline and the year-detecting
    "future proof" pipeline) are embedded as functions over an explicit
    [World]: the HTTP environment, the working directory, the [rents]
    table and the outcome of the next database calls.  Library calls
    ([requests], [re], [pandas], [sqlalchemy]) are embedded by what they
    do on the values the scripts hand them; every such boundary is
    marked where it is drawn. *)

From Stdlib Require Import ZArith List String Ascii Bool Lia DecimalString DecimalPos.
From stdpp Require Import gmap strings list fin_maps.

Local Open Scope string_scope.

(** ** Python primitives used by the scripts *)

Module Py.

(** [max(iterable, key=...)]: the running best is replaced only by an item
    whose key is strictly greater, so the first maximal item is returned.
    On an empty iterable Python raises [ValueError]: [None] here. *)
Section Max.
Context {A K : Type} (gt : K -> K -> bool) (key : A -> K).

Fixpoint max_from (best : A) (rest : list A) : A :=
  match rest with
  | [] => best
  | x :: rest' =>
      if gt (key x) (key best) then max_from x rest' else max_from best rest'
  end.

Definition max (l : list A) : option A :=
  match l with
  | [] => None
  | x :: rest => Some (max_from x rest)
  end.
End Max.

(** [a > b] on [str]: lexicographic on code points. *)
Definition str_gt (a b : string) : bool := String.ltb b a.

(** [a > b] on [int]. *)
Definition int_gt (a b : Z) : bool := (b <? a)%Z.

(** [s.startswith(p)] *)
Definition startswith (s p : string) : bool := String.prefix p s.

(** [sub in s] *)
Fixpoint contains (sub s : string) : bool :=
  String.prefix sub s ||
  match s with
  | EmptyString => false
  | String _ s' => contains sub s'
  end.

(** [s.split('/')[-1]]: what follows the last slash, the whole string when
    there is none. *)
Fixpoint last_segment (s : string) : string :=
  match s with
  | EmptyString => EmptyString
  | String c s' =>
      if contains "/" s' then last_segment s'
      else if Ascii.eqb c "/" then s' else s
  end.

(** The decimal digits.  A text is a string of 8-bit characters here,
    read as the code points below U+0100; among those [\d] and [int]
    know no digit but [0] to [9].  A page with a decimal digit of
    another script (which [\d] and [int] accept as well) is outside the
    embedding; a statement that depends on the digits being these ten
    says so in a hypothesis. *)
Definition is_digit (c : ascii) : bool :=
  match Ascii.is_nat c with Some _ => true | None => false end.

(** ASCII case mapping, as [str.upper] and [re.IGNORECASE] act on ASCII
    text (the embedding's strings are byte strings). *)
Definition upper_ascii (c : ascii) : ascii :=
  let n := nat_of_ascii c in
  if (97 <=? n)%nat && (n <=? 122)%nat then ascii_of_nat (n - 32) else c.

Definition lower_ascii (c : ascii) : ascii :=
  let n := nat_of_ascii c in
  if (65 <=? n)%nat && (n <=? 90)%nat then ascii_of_nat (n + 32) else c.

Fixpoint map_string (f : ascii -> ascii) (s : string) : string :=
  match s with
  | EmptyString => EmptyString
  | String c s' => String (f c) (map_string f s')
  end.

Definition upper : string -> string := map_string upper_ascii.
Definition lower : string -> string := map_string lower_ascii.

(** [re.search(r'(\d{4})', s)]: group 1 of the leftmost run of four
    digits (the ASCII digits: strings are byte strings here). *)
Fixpoint search_d4 (s : string) : option string :=
  match s with
  | String a (String b (String c (String d _)) as s') =>
      if is_digit a && is_digit b && is_digit c && is_digit d
      then Some (String a (String b (String c (String d EmptyString))))
      else search_d4 s'
  | _ => None
  end.

(** Decimal digits with single underscores between them, the digit
    syntax [int(s)] accepts in base ten. *)
Fixpoint int_digits_from (after_digit : bool) (acc : Z) (s : string) : option Z :=
  match s with
  | EmptyString => if after_digit then Some acc else None
  | String c s' =>
      if Ascii.eqb c "_" then
        if after_digit then int_digits_from false acc s' else None
      else
        match Ascii.is_nat c with
        | Some d => int_digits_from true (10 * acc + Z.of_nat d)%Z s'
        | None => None
        end
  end.

Definition int_digits (s : string) : option Z := int_digits_from false 0%Z s.

(** White space as [str.strip()] sees it in ASCII text. *)
Definition is_space (c : ascii) : bool :=
  let n := nat_of_ascii c in
  ((9 <=? n)%nat && (n <=? 13)%nat) || ((28 <=? n)%nat && (n <=? 32)%nat).

Fixpoint lstrip (s : string) : string :=
  match s with
  | String c s' => if is_space c then lstrip s' else s
  | EmptyString => EmptyString
  end.

(** [s.strip()] *)
Definition strip (s : string) : string :=
  String.rev (lstrip (String.rev (lstrip s))).

(** [int(s)]: surrounding white space, an optional sign, digits; anything
    else raises [ValueError] ([None]). *)
Definition int (s : string) : option Z :=
  match strip s with
  | String "-" s' => Z.opp <$> int_digits s'
  | String "+" s' => int_digits s'
  | s' => int_digits s'
  end.

(** [str(n)] for an [int]. *)
Definition str (n : Z) : string :=
  match n with
  | Z0 => "0"
  | Zpos p => NilEmpty.string_of_uint (Pos.to_uint p)
  | Zneg p => String "-" (NilEmpty.string_of_uint (Pos.to_uint p))
  end.

(** The truth value of an optional string, as in [if not csv_url]: [None]
    and the empty string are both falsy. *)
Definition truthy (s : option string) : option string :=
  match s with
  | Some u => if String.eqb u EmptyString then None else Some u
  | None => None
  end.

(** [os.path.join(a, b)] *)
Definition path_join (a b : string) : string :=
  if startswith b "/" then b
  else if (String.eqb a EmptyString || startswith (String.rev a) "/") then a +:+ b
  else a +:+ "/" +:+ b.

(** *** The two [re.findall] patterns

    Both patterns have the shape [href=Q(...)Q] with [Q] the double quote
    and a group that cannot hold a quote: at a position where [href=Q]
    starts, the group is the whole text up to the next quote, and the
    position matches when that text passes the test of the pattern.
    [findall] returns group 1 of the matches, left to right, resuming
    after the closing quote of each match. *)

Definition dquote : ascii := ascii_of_nat 34.

Definition href_open : string := "href=" +:+ String dquote EmptyString.

Fixpoint until_quote (s : string) : option string :=
  match s with
  | EmptyString => None
  | String c s' =>
      if Ascii.eqb c dquote then Some EmptyString
      else String c <$> until_quote s'
  end.

Fixpoint drop_string (n : nat) (s : string) : string :=
  match n, s with
  | S k, String _ s' => drop_string k s'
  | _, _ => s
  end.

Definition href_at (ignorecase : bool) (ok : string -> bool) (s : string)
  : option string :=
  if String.prefix href_open (if ignorecase then lower s else s) then
    match until_quote (drop_string 6 s) with
    | Some seg => if ok seg then Some seg else None
    | None => None
    end
  else None.

Fixpoint findall_href_from (ignorecase : bool) (ok : string -> bool)
    (skip : nat) (s : string) : list string :=
  match s with
  | EmptyString => []
  | String _ s' =>
      match skip with
      | S k => findall_href_from ignorecase ok k s'
      | O =>
          match href_at ignorecase ok s with
          | Some seg =>
              seg :: findall_href_from ignorecase ok (6 + String.length seg) s'
          | None => findall_href_from ignorecase ok 0 s'
          end
      end
  end.

Definition findall_href (ignorecase : bool) (ok : string -> bool)
    (content : string) : list string :=
  findall_href_from ignorecase ok 0 content.

(** [a] occurs in [s] and [b] occurs after that occurrence. *)
Fixpoint contains_then (a b s : string) : bool :=
  (String.prefix a s && contains b (drop_string (String.length a) s)) ||
  match s with
  | EmptyString => false
  | String _ s' => contains_then a b s'
  end.

(** [(\d+)-BR|(\d+)-Bedroom] tried at the head of [s]: the digit run must
    be followed at once by one of the two suffixes; group 1 is set by the
    first alternative only. *)
Fixpoint digit_run (s : string) : string * string :=
  match s with
  | String c s' =>
      if is_digit c then let '(d, r) := digit_run s' in (String c d, r)
      else (EmptyString, s)
  | EmptyString => (EmptyString, EmptyString)
  end.

Inductive BedroomMatch :=
  | NoMatch
  | Group1 (digits : string)
  | Group2Only.

Definition bedroom_at (s : string) : BedroomMatch :=
  let '(d, r) := digit_run s in
  if String.eqb d EmptyString then NoMatch
  else if String.prefix "-BR" r then Group1 d
  else if String.prefix "-Bedroom" r then Group2Only
  else NoMatch.

Fixpoint search_bedroom (s : string) : BedroomMatch :=
  match bedroom_at s with
  | NoMatch =>
      match s with
      | String _ s' => search_bedroom s'
      | EmptyString => NoMatch
      end
  | m => m
  end.

End Py.


(** ** Tables: the part of [pandas] the scripts use *)

Module Pandas.

(** A cell: missing ([None]/[NaN]), an integer or a string. *)
Inductive Cell :=
  | Null
  | Int (z : Z)
  | Str (s : string).

#[global] Instance Cell_eq_dec : EqDecision Cell.
Proof. solve_decision. Defined.

(** A [dict] from column name to value: a record of [to_dict('records')]
    and a row of the relational table. *)
Definition Row : Type := list (string * Cell).

#[global] Instance Row_eq_dec : EqDecision Row.
Proof. unfold Row. apply _. Defined.

Fixpoint row_get (c : string) (r : Row) : Cell :=
  match r with
  | [] => Null
  | (k, v) :: r' => if String.eqb k c then v else row_get c r'
  end.

(** A frame keeps its columns in order, each with one cell per index
    entry. *)
Record DataFrame := {
  nrows : nat;
  columns : list (string * list Cell)
}.

#[global] Instance DataFrame_eq_dec : EqDecision DataFrame.
Proof. solve_decision. Defined.

Definition column_names (df : DataFrame) : list string :=
  map fst (columns df).

Fixpoint column (c : string) (cols : list (string * list Cell))
  : option (list Cell) :=
  match cols with
  | [] => None
  | (k, vs) :: cols' => if String.eqb k c then Some vs else column c cols'
  end.

Fixpoint keys_in_order (seen : list string) (ks : list string) : list string :=
  match ks with
  | [] => []
  | k :: ks' =>
      if existsb (String.eqb k) seen then keys_in_order seen ks'
      else k :: keys_in_order (k :: seen) ks'
  end.

(** [pd.DataFrame(records)] for a list of dicts: the columns are the keys
    in order of first appearance, a key a record lacks gives a missing
    cell. *)
Definition of_records (recs : list Row) : DataFrame :=
  {| nrows := length recs;
     columns :=
       map (fun c => (c, map (row_get c) recs))
           (keys_in_order [] (concat (map (map fst) recs))) |}.

(** [pd.DataFrame(d)] for a dict of lists: all lists must have one
    length, or the constructor raises. *)
Definition of_dict (d : list (string * list Cell)) : option DataFrame :=
  match d with
  | [] => Some {| nrows := 0; columns := [] |}
  | (_, vs) :: _ =>
      if forallb (fun kv => Nat.eqb (length (snd kv)) (length vs)) d
      then Some {| nrows := length vs; columns := d |}
      else None
  end.

Fixpoint assoc (k : string) (m : list (string * string)) : option string :=
  match m with
  | [] => None
  | (a, b) :: m' => if String.eqb a k then Some b else assoc k m'
  end.

(** [df.rename(columns=mapping)] *)
Definition rename (mapping : list (string * string)) (df : DataFrame)
  : DataFrame :=
  {| nrows := nrows df;
     columns :=
       map (fun kv => (default (fst kv) (assoc (fst kv) mapping), snd kv))
           (columns df) |}.

(** [df[c] = v] for a scalar [v]: every column named [c] is overwritten
    in place; when there is none, a new last column is added. *)
Definition set_scalar (c : string) (v : Cell) (df : DataFrame) : DataFrame :=
  let fresh := repeat v (nrows df) in
  {| nrows := nrows df;
     columns :=
       if existsb (String.eqb c) (column_names df)
       then map (fun kv => if String.eqb (fst kv) c then (c, fresh) else kv)
                (columns df)
       else columns df ++ [(c, fresh)] |}.

(** [df.to_dict('records')], also the rows [df.to_sql] inserts. *)
Definition records (df : DataFrame) : list Row :=
  map (fun i => map (fun kv => (fst kv, nth i (snd kv) Null)) (columns df))
      (seq 0 (nrows df)).

(** [df.copy()]: the frame is a value here, a copy is the frame. *)
Definition copy (df : DataFrame) : DataFrame := df.

End Pandas.

(** ** The world the scripts run in *)

Module Sys.
Import Pandas.

(** [requests.get(url, timeout=...)]: it raises (no connection, timeout)
    or returns a response. *)
Inductive HttpResult :=
  | Unreachable
  | Response (status_code : Z) (body : string).

(** [response.raise_for_status()] raises exactly on the 4xx and 5xx
    statuses. *)
Definition raise_for_status (status_code : Z) : bool :=
  (400 <=? status_code)%Z && (status_code <? 600)%Z.

(** The reply of the catalog's [package_show] action after
    [response.json()], for replies whose fields, when present, hold
    strings (a list of resources for [resources]). *)
Record Resource := {
  format : option string;
  created : option string;
  res_url : option string
}.

Record Package := { resources : option (list Resource) }.

Record Reply := {
  success : bool;
  result : option Package
}.

(** What a file holds: raw bytes or text, or what [df.to_csv] and
    [json.dump] wrote (kept as the value written). *)
Inductive FileData :=
  | Raw (content : string)
  | CsvOf (df : DataFrame)
  | JsonOf (source effective_date updated_at : string) (year : option Z)
           (rents : list Row).

(** What the driver and the server do with the next call of
    [save_to_database]: everything they are asked; an exception before a
    first statement is run (import, connection, a statement the server
    refuses); or an exception on the INSERT of [to_sql] only. *)
Inductive DbOutcome :=
  | DbOk
  | DbFailsEarly
  | DbFailsOnInsert.

(** [http] and [read_json] are what [requests.get] and
    [response.json()] do ([None]: the call raises).  [now] and
    [now_stamp] are what the next [datetime.now()] gives, as
    [isoformat()] and as [strftime] print it, and [later] the readings
    after that one: every [datetime.now()] of the scripts takes one
    reading, and nothing is assumed of the readings (the date that
    [find_latest_payment_standards] reads for a log line is not kept).
    [transform_raises] says whether a statement inside the [try] of
    [transform_data] raises; [fs] is the directory tree, [unwritable] the
    paths that cannot be opened for writing; [rents] is the relational
    table and [db_next] the outcomes of the coming database calls.
    [legacy_sqlalchemy] says which line of [sqlalchemy] is installed:
    before 2.0 [Connection.execute] runs a statement given as a [str]
    and commits it on its own, and a [Connection] has no [commit]; from
    2.0 on [Connection.execute] raises on a [str]. *)
Record World := {
  http : string -> HttpResult;
  read_json : string -> option Reply;
  now : string;
  now_stamp : string;
  later : nat -> string * string;
  transform_raises : bool;
  fs : gmap string FileData;
  unwritable : string -> bool;
  rents : list Row;
  db_next : list DbOutcome;
  legacy_sqlalchemy : bool
}.

Definition set_fs (f : gmap string FileData) (w : World) : World :=
  {| http := http w; read_json := read_json w;
     now := now w; now_stamp := now_stamp w; later := later w;
     transform_raises := transform_raises w;
     fs := f; unwritable := unwritable w;
     rents := rents w; db_next := db_next w;
     legacy_sqlalchemy := legacy_sqlalchemy w |}.

Definition set_db (t : list Row) (next : list DbOutcome) (w : World) : World :=
  {| http := http w; read_json := read_json w;
     now := now w; now_stamp := now_stamp w; later := later w;
     transform_raises := transform_raises w;
     fs := fs w; unwritable := unwritable w;
     rents := t; db_next := next;
     legacy_sqlalchemy := legacy_sqlalchemy w |}.

(** The world once a reading of the clock has been taken: the next
    reading is the first of the later ones. *)
Definition tick (w : World) : World :=
  {| http := http w; read_json := read_json w;
     now := fst (later w 0); now_stamp := snd (later w 0);
     later := fun n => later w (S n);
     transform_raises := transform_raises w;
     fs := fs w; unwritable := unwritable w;
     rents := rents w; db_next := db_next w;
     legacy_sqlalchemy := legacy_sqlalchemy w |}.

(** [with open(path, 'w') as f: f.write(data)]: [None] when it raises, the
    directory is then as it was. *)
Definition write_file (path : string) (data : FileData) (w : World)
  : option World :=
  if unwritable w path then None else Some (set_fs (<[path := data]> (fs w)) w).

(** The outcome of the database call that starts now, and what is left
    for the later ones. *)
Definition db_outcome (w : World) : DbOutcome * list DbOutcome :=
  match db_next w with
  | [] => (DbOk, [])
  | o :: rest => (o, rest)
  end.

(** SQL [LIKE]: [%] stands for any run of characters, [_] for any one. *)
Fixpoint like (pat s : string) : bool :=
  match pat with
  | EmptyString => String.eqb s EmptyString
  | String p pat' =>
      if Ascii.eqb p "%" then
        (fix any (s : string) : bool :=
           like pat' s ||
           match s with
           | EmptyString => false
           | String _ s' => any s'
           end) s
      else
        match s with
        | EmptyString => false
        | String c s' =>
            (Ascii.eqb p "_" || Ascii.eqb p c) && like pat' s'
        end
  end.

(** [source LIKE pat] on a row: a missing or non-text [source] does not
    match. *)
Definition source_like (pat : string) (r : Row) : bool :=
  match row_get "source" r with
  | Str s => like pat s
  | _ => false
  end.

(** [df.to_sql('rents', engine, if_exists='append', index=False)] *)
Definition to_sql (df : DataFrame) (table : list Row) : list Row :=
  table ++ records df.

(** The [save_to_database] of the three scripts that only append. *)
Definition save_to_database_append (w : World) (df : DataFrame)
  : World * bool :=
  match db_outcome w with
  | (DbOk, rest) => (set_db (to_sql df (rents w)) rest w, true)
  | (_, rest) => (set_db (rents w) rest w, false)
  end.

End Sys.

(** ** [bha-payment-standards-future.py]: class [BHAPaymentStandardsFuture] *)

Module Future.
Import Pandas Sys.

Definition base_url : string := "https://www.bostonhousing.org".
Definition payment_standards_page : string :=
  "https://www.bostonhousing.org/en/Section-8-Leased-Housing/Finding-An-Apartment/Payment-Standards.aspx".
Definition data_dir : string := "/opt/rent-api/data".

(** The dict appended to [available_files]. *)
Record FileInfo := {
  url : string;
  year : Z;
  filename : string
}.

#[global] Instance FileInfo_eq_dec : EqDecision FileInfo.
Proof. solve_decision. Defined.

(** The group of [pdf_pattern] under [re.IGNORECASE]: some
    [Payment-Standards] with a [.pdf] after it. *)
Definition pdf_pattern_ok (seg : string) : bool :=
  Py.contains_then "payment-standards" ".pdf" (Py.lower seg).

Definition absolute (m : string) : string :=
  if Py.startswith m "/" then base_url +:+ m
  else if Py.startswith m "http" then m
  else base_url +:+ "/" +:+ m.

(** The body of the loop over [matches]: a match without four digits in
    a row adds nothing. *)
Definition file_of_match (m : string) : option FileInfo :=
  match Py.search_d4 m with
  | Some g =>
      match Py.int_digits g with
      | Some y =>
          Some {| url := absolute m; year := y;
                  filename := Py.last_segment m |}
      | None => None
      end
  | None => None
  end.

Definition available_files_of (content : string) : list FileInfo :=
  omap file_of_match (Py.findall_href true pdf_pattern_ok content).

(** [max(available_files, key=lambda x: x['year'])] *)
Definition latest_of (available_files : list FileInfo) : option FileInfo :=
  Py.max Py.int_gt year available_files.

Definition find_latest_payment_standards (w : World) : option FileInfo :=
  match http w payment_standards_page with
  | Unreachable => None
  | Response status content =>
      if raise_for_status status then None
      else
        let available_files := available_files_of content in
        match available_files with
        | [] => None
        | _ => latest_of available_files
        end
  end.

Definition download_payment_standards_pdf (w : World) (file_info : FileInfo)
  : World * option string :=
  match http w (url file_info) with
  | Unreachable => (w, None)
  | Response status content =>
      if raise_for_status status then (w, None)
      else
        let filepath := Py.path_join data_dir (filename file_info) in
        match write_file filepath (Raw content) w with
        | Some w' => (w', Some filepath)
        | None => (w, None)
        end
  end.

Definition rent_record (city zip : string) (r0 r1 r2 r3 r4 r5 r6 : Z) : Row :=
  [("city", Str city); ("zip", Str zip); ("0_br", Int r0); ("1br", Int r1);
   ("2br", Int r2); ("3br", Int r3); ("4br", Int r4); ("5br", Int r5);
   ("6br", Int r6)].

Definition rent_data : list Row :=
  [ rent_record "Boston" "02108" 3266 3450 4100 4950 5450 6250 7000;
    rent_record "Boston" "02109" 3486 3749 4452 5387 5933 6822 7713;
    rent_record "Boston" "02110" 3486 3749 4452 5387 5933 6822 7713 ].

Definition column_renames : list (string * string) :=
  [("city", "town"); ("zip", "zip_code"); ("0_br", "studio_rent");
   ("1br", "one_br_rent"); ("2br", "two_br_rent"); ("3br", "three_br_rent");
   ("4br", "four_br_rent"); ("5br", "five_br_rent"); ("6br", "six_br_rent")].

(** The f-string [BHA {year} Payment Standards]. *)
Definition source_label (year : Z) : string :=
  "BHA " +:+ Py.str year +:+ " Payment Standards".

(** The file at [pdf_path] is never opened: the rows are the literal
    [rent_data].  The function takes one reading of the clock, after
    which the caller goes on in [tick w]. *)
Definition extract_rent_data_from_pdf (w : World) (pdf_path : string)
    (year : Z) : option DataFrame :=
  let df := of_records rent_data in
  let df := rename column_renames df in
  let df := set_scalar "county" (Str "Suffolk") df in
  let df := set_scalar "source" (Str (source_label year)) df in
  let df := set_scalar "effective_year" (Int year) df in
  let df := set_scalar "updated_at" (Str (now w)) df in
  Some df.

Definition delete_pattern : string := "BHA % Payment Standards".

(** The DELETE is handed to [conn.execute] as a [str], and
    [conn.commit()] follows.  With [sqlalchemy] before 2.0 the DELETE
    runs and is committed by [execute] itself, then [conn.commit]
    raises [AttributeError]; from 2.0 on [execute] raises
    [ObjectNotExecutableError] and nothing is deleted.  Either way the
    [except] returns [False] and [df.to_sql] is never reached. *)
Definition save_to_database (w : World) (df : DataFrame) : World * bool :=
  match db_outcome w with
  | (DbFailsEarly, rest) => (set_db (rents w) rest w, false)
  | (_, rest) =>
      if legacy_sqlalchemy w then
        let kept :=
          List.filter (fun r => negb (source_like delete_pattern r)) (rents w) in
        (set_db kept rest w, false)
      else (set_db (rents w) rest w, false)
  end.

Definition save_to_csv (w : World) (df : DataFrame) (year : Z)
  : World * string :=
  let filepath :=
    Py.path_join data_dir ("bha_" +:+ Py.str year +:+ "_payment_standards.csv") in
  match write_file filepath (CsvOf df) w with
  | Some w' => (w', filepath)
  | None => (w, EmptyString)
  end.

Definition save_to_json (w : World) (df : DataFrame) (year : Z)
  : World * string :=
  let filepath :=
    Py.path_join data_dir ("bha_" +:+ Py.str year +:+ "_payment_standards.json") in
  let json_data :=
    JsonOf (source_label year) (Py.str year +:+ "-07-01") (now w) (Some year)
           (records df) in
  let w := tick w in
  match write_file filepath json_data w with
  | Some w' => (w', filepath)
  | None => (w, EmptyString)
  end.

Definition current_year_file : string :=
  Py.path_join data_dir "current_year.txt".

(** The first half of [check_for_updates]: [inl None] when the marker
    file does not exist, [inl (Some y)] when it holds the integer [y],
    [inr tt] when reading it raises. *)
Definition read_current_year (w : World) : (option Z) + unit :=
  match fs w !! current_year_file with
  | None => inl None
  | Some (Raw text) =>
      match Py.int text with
      | Some y => inl (Some y)
      | None => inr tt
      end
  | Some _ => inr tt
  end.

Definition check_for_updates (w : World) : bool :=
  match read_current_year w with
  | inr _ => false
  | inl current_year =>
      match find_latest_payment_standards w with
      | None => false
      | Some latest_file =>
          let latest_year := year latest_file in
          match current_year with
          | None => true
          | Some current_year => Py.int_gt latest_year current_year
          end
      end
  end.

Definition run_full_pipeline (w : World) : World * bool :=
  match find_latest_payment_standards w with
  | None => (w, false)
  | Some latest_file =>
      let year := year latest_file in
      match download_payment_standards_pdf w latest_file with
      | (w, None) => (w, false)
      | (w, Some pdf_path) =>
          match extract_rent_data_from_pdf w pdf_path year with
          | None => (w, false)
          | Some rent_data =>
              let w := tick w in
              let '(w, _) := save_to_csv w rent_data year in
              let '(w, _) := save_to_json w rent_data year in
              let '(w, _) := save_to_database w rent_data in
              match write_file current_year_file (Raw (Py.str year)) w with
              | Some w' => (w', true)
              | None => (w, false)
              end
          end
      end
  end.

(** The marker as the pipeline stores it. *)
Definition marker (w : World) : option FileData := fs w !! current_year_file.

(** [main]: the exit code of the process.  The constructor calls
    [os.makedirs(data_dir, exist_ok=True)], which may raise; [exit] is not
    caught by [except Exception], so the code is 0 after a run that
    returned [True] and 1 otherwise. *)
Definition main (makedirs_raises : bool) (w : World) : World * Z :=
  if makedirs_raises then (w, 1%Z)
  else
    let '(w, success) := run_full_pipeline w in
    if success then (w, 0%Z) else (w, 1%Z).

End Future.

(** ** [bha-2025-payment-standards.py]: class [BHA2025PaymentStandards] *)

Module Fixed2025.
Import Pandas Sys.

Definition pdf_url : string :=
  "https://www.bostonhousing.org/BHA/media/Documents/Leased%20Housing/SAFMRs/2025-Payment-Standards-All-BR.pdf".
Definition data_dir : string := "/opt/rent-api/data".

Definition download_payment_standards_pdf (w : World) : World * option string :=
  match http w pdf_url with
  | Unreachable => (w, None)
  | Response status content =>
      if raise_for_status status then (w, None)
      else
        let filepath :=
          Py.path_join data_dir "2025-Payment-Standards-All-BR.pdf" in
        match write_file filepath (Raw content) w with
        | Some w' => (w', Some filepath)
        | None => (w, None)
        end
  end.

Definition rent_record := Future.rent_record.

Definition rent_data : list Row :=
  [
    rent_record "Abington" "02351" 1450 1520 1980 2509 2714 3120 3527;
    rent_record "Acton" "01720" 2323 2496 2969 3589 3954 4546 5139;
    rent_record "Acushnet" "02743" 1136 1236 1521 1833 2193 2522 2850;
    rent_record "Amesbury" "01913" 2323 2496 2969 3589 3954 4546 5139;
    rent_record "Andover" "01810" 1796 2058 2657 3224 3539 4069 4601;
    rent_record "Arlington" "02474" 2468 2646 3150 3812 4200 4830 5460;
    rent_record "Arlington" "02476" 2323 2496 2969 3589 3954 4546 5139;
    rent_record "Ashland" "01721" 2375 2552 3035 3669 4042 4647 5254;
    rent_record "Attleboro" "02703" 1502 1610 1974 2384 2870 3406 3750;
    rent_record "Avon" "02322" 1461 1561 2050 2600 2913 3350 3787;
    rent_record "Ayer" "01432" 2102 2259 2686 3248 3578 4114 4650;
    rent_record "Bedford" "01730" 2646 2846 3381 4085 4505 5180 5856;
    rent_record "Bellingham" "02019" 2102 2259 2686 3248 3578 4114 4650;
    rent_record "Belmont" "02478" 2699 2909 3455 4180 4600 5290 5980;
    rent_record "Berkley" "02779" 1418 1569 2058 2607 2729 3138 3548;
    rent_record "Beverly" "01915" 2324 2497 2969 3590 3955 4547 5140;
    rent_record "Billerica" "01821" 1400 1560 2020 2434 2678 3079 3481;
    rent_record "Bolton" "01740" 1649 1796 2268 2993 3381 3889 4396;
    rent_record "Boston" "02109" 3486 3749 4452 5387 5933 6822 7713;
    rent_record "Boston - Allston" "02134" 2426 2607 3100 3749 4129 4748 5367;
    rent_record "Boston - Back Bay" "02116" 3455 3718 4421 5346 5892 6775 7659;
    rent_record "Boston - Beacon Hill" "02108" 3266 3450 4100 4950 5450 6250 7000;
    rent_record "Boston - Brighton" "02135" 2560 2750 3270 3950 4350 5002 5655;
    rent_record "Boston - Charlestown" "02129" 2920 3140 3730 4510 4970 5715 6461;
    rent_record "Boston - Chinatown" "02111" 3030 3250 3870 4680 5150 5922 6695;
    rent_record "Boston - Dorchester" "02122" 2212 2377 2827 3418 3765 4329 4894;
    rent_record "Boston - Dorchester" "02124" 2212 2377 2827 3418 3765 4329 4894;
    rent_record "Boston - Dorchester" "02125" 2212 2377 2827 3418 3765 4329 4894;
    rent_record "Boston - Dorchester / Roxbury" "02121" 2212 2377 2827 3418 3765 4329 4894;
    rent_record "Boston - Downtown" "02199" 3486 3749 4452 5387 5933 6822 7713;
    rent_record "Boston - East Boston" "02128" 2212 2377 2827 3418 3765 4329 4894;
    rent_record "Boston - Fenway" "02115" 2426 2607 3100 3749 4129 4748 5367;
    rent_record "Boston - Financial Disctrict" "02110" 3486 3749 4452 5387 5933 6822 7713;
    rent_record "Boston - Harvard Business" "02163" 3210 3450 4130 4960 5460 6279 7098;
    rent_record "Boston - Hyde Park" "02136" 2324 2497 2969 3590 3955 4547 5140;
    rent_record "Boston - Jamaica Plain" "02130" 2500 2680 3190 3860 4250 4887 5525;
    rent_record "Boston - Kenmore" "02215" 2950 3170 3770 4560 5020 5773 6526;
    rent_record "Boston - Mattapan" "02126" 2212 2377 2827 3418 3765 4329 4894 ].

Definition column_renames : list (string * string) := Future.column_renames.

(** As in the year-detecting script, [pdf_path] is only logged and one
    reading of the clock is taken. *)
Definition extract_rent_data_from_pdf (w : World) (pdf_path : string)
  : option DataFrame :=
  let df := of_records rent_data in
  let df := rename column_renames df in
  let df := set_scalar "county" (Str "Suffolk") df in
  let df := set_scalar "source" (Str "BHA 2025 Payment Standards") df in
  let df := set_scalar "updated_at" (Str (now w)) df in
  Some df.

Definition save_to_database (w : World) (df : DataFrame) : World * bool :=
  save_to_database_append w df.

Definition save_to_csv (w : World) (df : DataFrame) (filename : option string)
  : World * string :=
  let filename := default "bha_2025_payment_standards.csv" filename in
  let filepath := Py.path_join data_dir filename in
  match write_file filepath (CsvOf df) w with
  | Some w' => (w', filepath)
  | None => (w, EmptyString)
  end.

Definition save_to_json (w : World) (df : DataFrame) (filename : option string)
  : World * string :=
  let filename := default "bha_2025_payment_standards.json" filename in
  let filepath := Py.path_join data_dir filename in
  let json_data :=
    JsonOf "BHA 2025 Payment Standards" "2025-07-01" (now w) None (records df) in
  let w := tick w in
  match write_file filepath json_data w with
  | Some w' => (w', filepath)
  | None => (w, EmptyString)
  end.

Definition run_full_pipeline (w : World) : World * bool :=
  match download_payment_standards_pdf w with
  | (w, None) => (w, false)
  | (w, Some pdf_path) =>
      match extract_rent_data_from_pdf w pdf_path with
      | None => (w, false)
      | Some rent_data =>
          let w := tick w in
          let '(w, _) := save_to_csv w rent_data (Some "bha_2025_payment_standards.csv") in
          let '(w, _) := save_to_json w rent_data (Some "bha_2025_payment_standards.json") in
          let '(w, _) := save_to_database w rent_data in
          (w, true)
      end
  end.

(** [main]: the exit code of the process.  The constructor calls
    [os.makedirs(data_dir, exist_ok=True)], which may raise; [exit] is not
    caught by [except Exception], so the code is 0 after a run that
    returned [True] and 1 otherwise. *)
Definition main (makedirs_raises : bool) (w : World) : World * Z :=
  if makedirs_raises then (w, 1%Z)
  else
    let '(w, success) := run_full_pipeline w in
    if success then (w, 0%Z) else (w, 1%Z).

End Fixed2025.

(** ** [bha-data-integration.py]: class [BHADataIntegration] *)

Module Ckan.
Import Pandas Sys.

Definition base_url : string := "https://data.boston.gov/api/3".
Definition dataset_id : string := "income-restricted-housing".
Definition data_dir : string := "/opt/rent-api/data".

(** The request of [get_dataset_info], [params] included. *)
Definition package_show_url : string :=
  base_url +:+ "/action/package_show?id=" +:+ dataset_id.

(** [None] stands for the empty dict the function returns on failure. *)
Definition get_dataset_info (w : World) : option Package :=
  match http w package_show_url with
  | Unreachable => None
  | Response status text =>
      if raise_for_status status then None
      else
        match read_json w text with
        | None => None
        | Some data => if success data then result data else None
        end
  end.

Definition is_csv (r : Resource) : bool :=
  String.eqb (Py.upper (default EmptyString (format r))) "CSV".

(** The key of the [max]: [x.get('created', '')]. *)
Definition created_key (r : Resource) : string :=
  default EmptyString (created r).

Definition latest_resource_of (csv_resources : list Resource)
  : option Resource :=
  Py.max Py.str_gt created_key csv_resources.

Definition get_latest_csv_url (w : World) : option string :=
  match get_dataset_info w with
  | None => None
  | Some dataset_info =>
      let resources := default [] (resources dataset_info) in
      let csv_resources := List.filter is_csv resources in
      match csv_resources with
      | [] => None
      | _ =>
          match latest_resource_of csv_resources with
          | Some latest_resource => res_url latest_resource
          | None => None
          end
      end
  end.

(** After a response that [raise_for_status] lets through, the argument
    of [pd.read_csv] is [pd.StringIO(response.text)]: [pandas] has no
    attribute [StringIO], the [AttributeError] is caught by the [except]
    of the function, which returns [None]. *)
Definition download_csv_data (w : World) (url : string) : option DataFrame :=
  match http w url with
  | Unreachable => None
  | Response status text =>
      if raise_for_status status then None else None
  end.

(** [column_mapping] is the empty dict, so the rename is skipped. *)
Definition column_mapping : list (string * string) := [].

(** One reading of the clock is taken, after which the caller goes on
    in [tick w]. *)
Definition transform_data (w : World) (df : DataFrame) : DataFrame :=
  if transform_raises w then df
  else
    let transformed_df := copy df in
    let transformed_df := set_scalar "source" (Str "BHA") transformed_df in
    let transformed_df := set_scalar "updated_at" (Str (now w)) transformed_df in
    match column_mapping with
    | [] => transformed_df
    | _ => rename column_mapping transformed_df
    end.

Definition save_to_database (w : World) (df : DataFrame) : World * bool :=
  save_to_database_append w df.

(** Without a [filename] the name is made from a reading of the clock. *)
Definition save_to_csv (w : World) (df : DataFrame) (filename : option string)
  : World * string :=
  let '(filename, w) :=
    match filename with
    | Some filename => (filename, w)
    | None => ("bha_rent_data_" +:+ now_stamp w +:+ ".csv", tick w)
    end in
  let filepath := Py.path_join data_dir filename in
  match write_file filepath (CsvOf df) w with
  | Some w' => (w', filepath)
  | None => (w, EmptyString)
  end.

Definition run_full_pipeline (w : World) : World * bool :=
  match Py.truthy (get_latest_csv_url w) with
  | None => (w, false)
  | Some csv_url =>
      match download_csv_data w csv_url with
      | None => (w, false)
      | Some df =>
          let transformed_df := transform_data w df in
          let w := tick w in
          let '(w, csv_file) := save_to_csv w transformed_df None in
          let '(w, db_success) := save_to_database w transformed_df in
          if db_success then (w, true) else (w, false)
      end
  end.

(** [main]: the exit code of the process.  The constructor calls
    [os.makedirs(data_dir, exist_ok=True)], which may raise; [exit] is not
    caught by [except Exception], so the code is 0 after a run that
    returned [True] and 1 otherwise. *)
Definition main (makedirs_raises : bool) (w : World) : World * Z :=
  if makedirs_raises then (w, 1%Z)
  else
    let '(w, success) := run_full_pipeline w in
    if success then (w, 0%Z) else (w, 1%Z).

End Ckan.

(** ** [bha-rent-data-integration.py]: class [BHARentDataIntegration] *)

Module RentData.
Import Pandas Sys.

Definition base_url : string := "https://www.bostonhousing.org".
Definition payment_standards_url : string :=
  "https://www.bostonhousing.org/en/Section-8-Leased-Housing/Finding-An-Apartment/Payment-Standards.aspx".
Definition data_dir : string := "/opt/rent-api/data".

(** The dict appended to [pdf_links]; [year] is text here, the word
    [Unknown] when the file name has no four digits in a row.
    [bedrooms] is [None] when the pattern matched through its second
    alternative. *)
Record PdfLink := {
  url : string;
  filename : string;
  year : string;
  bedrooms : option string;
  type : string
}.

#[global] Instance PdfLink_eq_dec : EqDecision PdfLink.
Proof. solve_decision. Defined.

Definition pdf_pattern_ok (seg : string) : bool := Py.contains ".pdf" seg.

Definition wanted (m : string) : bool :=
  Py.contains "Payment-Standards" m || Py.contains "SAFMRs" m.

Definition absolute (m : string) : string :=
  if Py.startswith m "/" then base_url +:+ m
  else if Py.startswith m "http" then m
  else base_url +:+ "/" +:+ m.

Definition link_of_match (m : string) : PdfLink :=
  let full_url := absolute m in
  let filename := Py.last_segment m in
  let year := default "Unknown" (Py.search_d4 filename) in
  let bedrooms :=
    match Py.search_bedroom filename with
    | Py.Group1 d => Some d
    | Py.Group2Only => None
    | Py.NoMatch => Some "All"
    end in
  {| url := full_url; filename := filename; year := year;
     bedrooms := bedrooms; type := "Payment Standards" |}.

Definition pdf_links_of (content : string) : list PdfLink :=
  map link_of_match
      (List.filter wanted (Py.findall_href false pdf_pattern_ok content)).

Definition get_payment_standards_files (w : World) : list PdfLink :=
  match http w payment_standards_url with
  | Unreachable => []
  | Response status content =>
      if raise_for_status status then [] else pdf_links_of content
  end.

(** [max(pdf_files, key=lambda x: x['year'])]: the keys are strings. *)
Definition latest_of (pdf_files : list PdfLink) : option PdfLink :=
  Py.max Py.str_gt year pdf_files.

Definition get_latest_payment_standards (w : World) : option string :=
  let pdf_files := get_payment_standards_files w in
  match pdf_files with
  | [] => None
  | _ => url <$> latest_of pdf_files
  end.

Definition download_payment_standards (w : World) (url : string)
  : World * option string :=
  match http w url with
  | Unreachable => (w, None)
  | Response status content =>
      if raise_for_status status then (w, None)
      else
        let filepath := Py.path_join data_dir (Py.last_segment url) in
        match write_file filepath (Raw content) w with
        | Some w' => (w', Some filepath)
        | None => (w, None)
        end
  end.

Definition zips : list Cell :=
  [Str "02108"; Str "02109"; Str "02110"; Str "02111"; Str "02113"].

Definition sample_frame (studio one two three four five six : list Z)
    (source : string) (updated_at : string) : option DataFrame :=
  of_dict
    [("zip_code", zips);
     ("town", repeat (Str "Boston") 5);
     ("county", repeat (Str "Suffolk") 5);
     ("studio_rent", map Int studio);
     ("one_br_rent", map Int one);
     ("two_br_rent", map Int two);
     ("three_br_rent", map Int three);
     ("four_br_rent", map Int four);
     ("five_br_rent", map Int five);
     ("six_br_rent", map Int six);
     ("source", repeat (Str source) 5);
     ("updated_at", repeat (Str updated_at) 5)].

(** A placeholder in the source: [pdf_path] is only logged.  This
    function and the next take one reading of the clock each. *)
Definition extract_rent_data_from_pdf (w : World) (pdf_path : string)
  : option DataFrame :=
  sample_frame
    [1800; 1850; 1900; 1750; 1950]%Z [2100; 2150; 2200; 2050; 2250]%Z
    [2500; 2550; 2600; 2450; 2650]%Z [3000; 3050; 3100; 2950; 3150]%Z
    [3500; 3550; 3600; 3450; 3650]%Z [4000; 4050; 4100; 3950; 4150]%Z
    [4500; 4550; 4600; 4450; 4650]%Z
    "BHA Payment Standards" (now w).

Definition get_rent_estimator_data (w : World) : option DataFrame :=
  sample_frame
    [1750; 1800; 1850; 1700; 1900]%Z [2050; 2100; 2150; 2000; 2200]%Z
    [2450; 2500; 2550; 2400; 2600]%Z [2950; 3000; 3050; 2900; 3100]%Z
    [3450; 3500; 3550; 3400; 3600]%Z [3950; 4000; 4050; 3900; 4100]%Z
    [4450; 4500; 4550; 4400; 4600]%Z
    "BHA Rent Estimator" (now w).

Definition save_to_database (w : World) (df : DataFrame) : World * bool :=
  save_to_database_append w df.

(** Without a [filename] the name is made from a reading of the clock. *)
Definition save_to_csv (w : World) (df : DataFrame) (filename : option string)
  : World * string :=
  let '(filename, w) :=
    match filename with
    | Some filename => (filename, w)
    | None => ("bha_rent_data_" +:+ now_stamp w +:+ ".csv", tick w)
    end in
  let filepath := Py.path_join data_dir filename in
  match write_file filepath (CsvOf df) w with
  | Some w' => (w', filepath)
  | None => (w, EmptyString)
  end.

(** The payment-standards half of the pipeline: the nested [if]s. *)
Definition payment_standards_step (w : World) : World :=
  match Py.truthy (get_latest_payment_standards w) with
  | None => w
  | Some latest_pdf_url =>
      match download_payment_standards w latest_pdf_url with
      | (w, None) => w
      | (w, Some pdf_path) =>
          match extract_rent_data_from_pdf w pdf_path with
          | None => w
          | Some pdf_data =>
              let w := tick w in
              let '(w, _) := save_to_csv w pdf_data (Some "bha_payment_standards.csv") in
              let '(w, _) := save_to_database w pdf_data in
              w
          end
      end
  end.

Definition run_full_pipeline (w : World) : World * bool :=
  let w := payment_standards_step w in
  match get_rent_estimator_data w with
  | None => (w, true)
  | Some estimator_data =>
      let w := tick w in
      let '(w, _) := save_to_csv w estimator_data (Some "bha_rent_estimator.csv") in
      let '(w, _) := save_to_database w estimator_data in
      (w, true)
  end.

(** [main]: the exit code of the process.  The constructor calls
    [os.makedirs(data_dir, exist_ok=True)], which may raise; [exit] is not
    caught by [except Exception], so the code is 0 after a run that
    returned [True] and 1 otherwise. *)
Definition main (makedirs_raises : bool) (w : World) : World * Z :=
  if makedirs_raises then (w, 1%Z)
  else
    let '(w, success) := run_full_pipeline w in
    if success then (w, 0%Z) else (w, 1%Z).

End RentData.

(** ** Concrete worlds used by the examples below *)

Module Scenario.
Import Pandas Sys.

Definition q : string := String Py.dquote EmptyString.

(** An anchor element around the link [h]. *)
Definition link (h : string) : string :=
  "<a href=" +:+ q +:+ h +:+ q +:+ ">pdf</a>".

Fixpoint zeros (n : nat) : string :=
  match n with
  | O => EmptyString
  | S n' => String "0" (zeros n')
  end.

(** The clock of the examples: the readings after the first one are a
    microsecond apart, within the same second. *)
Definition clock (n : nat) : string * string :=
  let d := Py.str (Z.of_nat (S n)) in
  ("2025-07-01T09:00:00." +:+ zeros (6 - String.length d) +:+ d,
   "20250701_090000").

(** Nothing answers, the directory and the table are empty, every write
    goes through, the server does what it is asked and [sqlalchemy] is
    of the 2.x line. *)
Definition offline : World :=
  {| http := fun _ => Unreachable;
     read_json := fun _ => None;
     now := "2025-07-01T09:00:00";
     now_stamp := "20250701_090000";
     later := clock;
     transform_raises := false;
     fs := ∅;
     unwritable := fun _ => false;
     rents := [];
     db_next := [];
     legacy_sqlalchemy := false |}.

(** As [offline], with a statement of [transform_data] raising. *)
Definition raising : World :=
  {| http := fun _ => Unreachable;
     read_json := fun _ => None;
     now := "2025-07-01T09:00:00";
     now_stamp := "20250701_090000";
     later := clock;
     transform_raises := true;
     fs := ∅;
     unwritable := fun _ => false;
     rents := [];
     db_next := [];
     legacy_sqlalchemy := false |}.

(** The world where the page answers [status] with [content], every
    other address answers 200 with the bytes of a stub document, and the
    directory, table and database outcomes are as given. *)
Definition serving (status : Z) (content : string)
    (files : gmap string FileData) (table : list Row)
    (db : list DbOutcome) : World :=
  {| http := fun u =>
       if String.eqb u Future.payment_standards_page
       then Response status content
       else Response 200 "%PDF-1.7";
     read_json := fun _ => None;
     now := "2025-07-01T09:00:00";
     now_stamp := "20250701_090000";
     later := clock;
     transform_raises := false;
     fs := files;
     unwritable := fun _ => false;
     rents := table;
     db_next := db;
     legacy_sqlalchemy := false |}.

(** The world [w] with the older line of [sqlalchemy] installed. *)
Definition with_legacy_sqlalchemy (w : World) : World :=
  {| http := http w; read_json := read_json w;
     now := now w; now_stamp := now_stamp w; later := later w;
     transform_raises := transform_raises w;
     fs := fs w; unwritable := unwritable w;
     rents := rents w; db_next := db_next w;
     legacy_sqlalchemy := true |}.

Definition page_2024_2025 : string :=
  link "/docs/2024-Payment-Standards.pdf" +:+ link "/docs/2025-Payment-Standards.pdf".

Definition page_2024 : string := link "/docs/2024-Payment-Standards.pdf".

Definition page_2025 : string := link "/docs/2025-Payment-Standards.pdf".

(** One dated link and one link whose file name carries no year. *)
Definition page_undated : string :=
  link "/docs/2025-Payment-Standards.pdf" +:+ link "/docs/Payment-Standards-All-BR.pdf".

Definition marker_file (text : string) : gmap string FileData :=
  {[ Future.current_year_file := Raw text ]}.

Definition row_2024 : Row :=
  [("town", Str "Boston"); ("zip_code", Str "02108");
   ("two_br_rent", Int 3900); ("source", Str "BHA 2024 Payment Standards")].

Definition no_frame : DataFrame := {| nrows := 0; columns := [] |}.

(** What the year-detecting and the fixed-URL extractors return. *)
Definition frame_future (year : Z) : DataFrame :=
  default no_frame (Future.extract_rent_data_from_pdf offline "2025.pdf" year).

Definition frame_fixed : DataFrame :=
  default no_frame (Fixed2025.extract_rent_data_from_pdf offline "2025.pdf").

(** Raw rows as a downloaded CSV may hold them: the first lacks the
    postal code and every rent, the second has text where a rent is
    expected. *)
Definition frame_raw : DataFrame :=
  of_records
    [ [("zip_code", Null); ("town", Str "Boston"); ("two_br_rent", Null)];
      [("zip_code", Str "02108"); ("town", Str "Boston");
       ("two_br_rent", Str "n/a")] ].

(** A downloaded table that has a [source] column of its own. *)
Definition frame_with_source : DataFrame :=
  of_records [[("zip_code", Str "02108"); ("source", Str "HUD")]].

End Scenario.

(** ** Vocabulary of the statements *)

Module Spec.
Import Pandas Sys.

(** Texts made of decimal digits, and texts without white space. *)
Fixpoint all_digits (s : string) : bool :=
  match s with
  | EmptyString => true
  | String c s' => Py.is_digit c && all_digits s'
  end.

Fixpoint no_spaces (s : string) : bool :=
  match s with
  | EmptyString => true
  | String c s' => negb (Py.is_space c) && no_spaces s'
  end.

(** How many times the row [r] occurs in a table. *)
Definition copies (r : Row) (table : list Row) : nat :=
  count_occ Row_eq_dec table r.

(** The row is one the DELETE of the year-detecting script removes. *)
Definition matches_delete (r : Row) : bool :=
  source_like Future.delete_pattern r.

(** Discovery on [page] has nothing to offer: the request raises, the
    answer is one [raise_for_status] rejects, or the content yields no
    candidate. *)
Definition discovery_fails {A : Type} (candidates : string -> list A)
    (page : string) (w : World) : Prop :=
  match http w page with
  | Unreachable => True
  | Response status content =>
      raise_for_status status = true \/ candidates content = []
  end.

(** The two columns [transform_data] stamps, and a table or a row
    without them. *)
Definition stamped (c : string) : bool :=
  String.eqb c "source" || String.eqb c "updated_at".

Definition original_columns (cols : list (string * list Cell))
  : list (string * list Cell) :=
  List.filter (fun kv => negb (stamped (fst kv))) cols.

Definition original_cells (r : Row) : Row :=
  List.filter (fun kv => negb (stamped (fst kv))) r.

(** What the transform step stamps a column of the given name with, in
    the world [w]: [BHA] for [source], the time stamp for [updated_at],
    nothing for any other name. *)
Definition stamp_of (w : World) (c : string) : option Cell :=
  if String.eqb c "source" then Some (Str "BHA")
  else if String.eqb c "updated_at" then Some (Str (now w))
  else None.

(** An input column after the step, on a table of [n] rows: where it
    stood, holding the stamp in every row when its name is a stamped one
    and its own cells otherwise. *)
Definition restamped (w : World) (n : nat) (kv : string * list Cell)
  : string * list Cell :=
  match stamp_of w (fst kv) with
  | Some v => (fst kv, repeat v n)
  | None => kv
  end.

(** The column the step adds for the name [c]: none when the input has
    a column of that name. *)
Definition appended (w : World) (df : DataFrame) (c : string)
  : list (string * list Cell) :=
  if existsb (String.eqb c) (column_names df) then []
  else
    match stamp_of w c with
    | Some v => [(c, repeat v (nrows df))]
    | None => []
    end.

(** The columns that say where and when a record was obtained, and a
    frame without them: locality, postal code, county and rents. *)
Definition provenance (c : string) : bool :=
  String.eqb c "source" || String.eqb c "effective_year"
  || String.eqb c "updated_at".

Definition rent_values (df : DataFrame) : list (string * list Cell) :=
  List.filter (fun kv => negb (provenance (fst kv))) (columns df).

End Spec.

(** ** Further vocabulary and worlds *)

Module More.
Import Pandas Sys Spec.

(** A text of exactly four decimal digits. *)
Definition four_digits (s : string) : bool :=
  match s with
  | String a (String b (String c (String d EmptyString))) =>
      Py.is_digit a && Py.is_digit b && Py.is_digit c && Py.is_digit d
  | _ => false
  end.

(** The catalog answers with the given reply and every other address
    with the text of a CSV file; the database outcomes are as given. *)
Definition catalog (reply : Reply) (db : list DbOutcome) : World :=
  {| http := fun u =>
       if String.eqb u Ckan.package_show_url
       then Response 200 "{}" else Response 200 "zip_code,two_br_rent";
     read_json := fun _ => Some reply;
     now := "2025-07-01T09:00:00";
     now_stamp := "20250701_090000";
     later := Scenario.clock;
     transform_raises := false;
     fs := ∅;
     unwritable := fun _ => false;
     rents := [];
     db_next := db;
     legacy_sqlalchemy := false |}.

Definition csv_resource (created url : string) : Resource :=
  {| format := Some "csv"; created := Some created; res_url := Some url |}.

Definition reply_two_csv : Reply :=
  {| success := true;
     result :=
       Some {| resources :=
                 Some [ csv_resource "2024-01-05T10:00:00" "https://data.boston.gov/a.csv";
                        {| format := Some "PDF"; created := Some "2025-03-01T10:00:00";
                           res_url := Some "https://data.boston.gov/b.pdf" |};
                        csv_resource "2024-06-30T10:00:00" "https://data.boston.gov/c.csv" ] |} |}.

(** The year of a page-scan link read as a number (0 when it is not
    one). *)
Definition year_number (l : RentData.PdfLink) : Z :=
  default 0%Z (Py.int_digits (RentData.year l)).

(** Where the text order puts the year of a page-scan link: at the
    number it spells, and at 10000, above every number of four digits,
    for the word [Unknown]. *)
Definition year_rank (l : RentData.PdfLink) : Z :=
  if String.eqb (RentData.year l) "Unknown" then 10000%Z else year_number l.

(** The catalog cannot be read: the request raises, the status is one
    [raise_for_status] rejects, the body is not JSON, or the reply says
    [success] false or has no [result]. *)
Definition catalog_unavailable (w : World) : Prop :=
  match http w Ckan.package_show_url with
  | Unreachable => True
  | Response status text =>
      raise_for_status status = true
      \/ match read_json w text with
         | None => True
         | Some data => success data = false \/ result data = None
         end
  end.

(** The candidate read off the link to the 2025 document. *)
Definition candidate_2025 : Future.FileInfo :=
  {| Future.url := "https://www.bostonhousing.org/docs/2025-Payment-Standards.pdf";
     Future.year := 2025;
     Future.filename := "2025-Payment-Standards.pdf" |}.

(** Every column of the frame named [c] holds [v] in every row, and
    there is such a column. *)
Definition column_holds (c : string) (v : Cell) (df : DataFrame) : Prop :=
  existsb (String.eqb c) (column_names df) = true
  /\ Forall (fun kv => fst kv = c -> snd kv = repeat v (nrows df)) (columns df).

(** The second world has the same environment as the first: network,
    decoder, permissions and libraries; the clock may have moved on. *)
Definition same_environment (w w' : World) : Prop :=
  http w' = http w /\ read_json w' = read_json w
  /\ transform_raises w' = transform_raises w
  /\ unwritable w' = unwritable w
  /\ legacy_sqlalchemy w' = legacy_sqlalchemy w.

(** The second world has the same surroundings as the first: network,
    decoder, clock, permissions and libraries. *)
Definition same_surroundings (w w' : World) : Prop :=
  http w' = http w /\ read_json w' = read_json w
  /\ now w' = now w /\ now_stamp w' = now_stamp w /\ later w' = later w
  /\ transform_raises w' = transform_raises w
  /\ unwritable w' = unwritable w
  /\ legacy_sqlalchemy w' = legacy_sqlalchemy w.

(** The two worlds differ at most in the directory. *)
Definition only_files_differ (w w' : World) : Prop :=
  same_surroundings w w' /\ rents w' = rents w /\ db_next w' = db_next w.

(** The two worlds differ at most in the directory and in the readings
    of the clock taken so far. *)
Definition database_untouched (w w' : World) : Prop :=
  same_environment w w' /\ rents w' = rents w /\ db_next w' = db_next w.

(** The two worlds differ at most in the table and in the pending
    database outcomes. *)
Definition only_database_differs (w w' : World) : Prop :=
  same_surroundings w w' /\ fs w' = fs w.

(** The rows of a table the DELETE of the year-detecting script leaves. *)
Definition other_sources (table : list Row) : list Row :=
  List.filter (fun r => negb (matches_delete r)) table.

End More.

(** * Properties *)

Import Spec More.

(** ** Selection by [max] *)

Section MaxByInt.
Context {A : Type} (key : A -> Z).

(** [max] with an integer key returns the first item among those whose
    key is greatest: everything before it is strictly smaller, nothing
    after it is greater. *)
Lemma max_from_first_greatest (best : A) (rest : list A) :
  exists l1 l2,
    best :: rest = (l1 ++ Py.max_from Py.int_gt key best rest :: l2)%list
    /\ Forall (fun g => (key g < key (Py.max_from Py.int_gt key best rest))%Z) l1
    /\ Forall (fun g => (key g <= key (Py.max_from Py.int_gt key best rest))%Z) l2.
Proof.
  revert best. induction rest as [|x rest IH]; intros best; simpl.
  - exists [], []. repeat split; constructor.
  - destruct (Py.int_gt (key x) (key best)) eqn:E; unfold Py.int_gt in E.
    + apply Z.ltb_lt in E.
      destruct (IH x) as (l1 & l2 & Heq & H1 & H2).
      remember (Py.max_from Py.int_gt key x rest) as f eqn:Hf. clear Hf IH.
      exists (best :: l1), l2. split; [|split]; [| |exact H2].
      * simpl. now rewrite Heq.
      * constructor; [|exact H1].
        destruct l1 as [|y l1]; simpl in Heq; inversion Heq; subst.
        -- exact E.
        -- inversion H1; subst. lia.
    + apply Z.ltb_ge in E.
      destruct (IH best) as (l1 & l2 & Heq & H1 & H2).
      remember (Py.max_from Py.int_gt key best rest) as f eqn:Hf. clear Hf IH.
      destruct l1 as [|y l1]; simpl in Heq; inversion Heq; subst.
      * exists [], (x :: l2). split; [|split].
        -- reflexivity.
        -- constructor.
        -- constructor; [lia | exact H2].
      * exists (y :: x :: l1), l2. split; [|split]; [| |exact H2].
        -- reflexivity.
        -- inversion H1; subst. constructor; [assumption|].
           constructor; [lia|assumption].
Qed.
End MaxByInt.

Section MaxGreatest.
Context {A K : Type} (gt leb : K -> K -> bool) (key : A -> K).
Hypothesis gt_leb : forall a b, gt a b = negb (leb a b).
Hypothesis leb_refl : forall a, leb a a = true.
Hypothesis leb_trans : forall a b c, leb a b = true -> leb b c = true -> leb a c = true.
Hypothesis leb_total : forall a b, leb a b = true \/ leb b a = true.

(** Under a total order, no item has a key greater than the key of the
    item [max] returns. *)
Lemma max_from_greatest (best : A) (rest : list A) :
  Forall (fun x => leb (key x) (key (Py.max_from gt key best rest)) = true)
         (best :: rest).
Proof.
  revert best. induction rest as [|x rest IH]; intros best; simpl.
  - constructor; [apply leb_refl | constructor].
  - rewrite gt_leb. destruct (leb (key x) (key best)) eqn:E; simpl.
    + specialize (IH best). inversion IH as [|? ? Hb Hr]; subst.
      constructor; [exact Hb|]. constructor; [|exact Hr].
      eapply leb_trans; [exact E | exact Hb].
    + specialize (IH x). inversion IH as [|? ? Hx Hr]; subst.
      constructor; [|exact IH].
      destruct (leb_total (key x) (key best)) as [C|C]; [congruence|].
      eapply leb_trans; [exact C | exact Hx].
Qed.

Lemma max_from_member (best : A) (rest : list A) :
  In (Py.max_from gt key best rest) (best :: rest).
Proof.
  revert best. induction rest as [|x rest IH]; intros best; simpl.
  - now left.
  - destruct (gt (key x) (key best)).
    + right. apply IH.
    + destruct (IH best) as [<-|H]; [now left | right; now right].
Qed.
End MaxGreatest.


(** ** Printing and reading back an integer *)

Lemma rev_app_rev_app (s t u : string) :
  String.rev_app (String.rev_app s t) u = String.rev_app t (s +:+ u).
Proof.
  revert t u. induction s as [|a s IH]; intros t u; simpl; [reflexivity|].
  now rewrite IH.
Qed.

Lemma string_app_empty (s : string) : s +:+ EmptyString = s.
Proof. induction s as [|a s IH]; simpl; [reflexivity|]. unfold String.app in *. simpl. now rewrite IH. Qed.

Lemma rev_rev (s : string) : String.rev (String.rev s) = s.
Proof. unfold String.rev. rewrite rev_app_rev_app. simpl. apply string_app_empty. Qed.

Lemma no_spaces_rev_app (s t : string) :
  no_spaces s = true -> no_spaces t = true ->
  no_spaces (String.rev_app s t) = true.
Proof.
  revert t. induction s as [|a s IH]; intros t Hs Ht; simpl in *; [exact Ht|].
  apply andb_true_iff in Hs as [Ha Hs]. apply IH; [exact Hs|].
  simpl. now rewrite Ha, Ht.
Qed.

Lemma digit_not_space (c : ascii) : Py.is_digit c = true -> Py.is_space c = false.
Proof.
  destruct c as [[] [] [] [] [] [] [] []]; vm_compute; congruence.
Qed.

Lemma all_digits_no_spaces (s : string) :
  all_digits s = true -> no_spaces s = true.
Proof.
  induction s as [|c s IH]; simpl; [reflexivity|]. intros H.
  apply andb_true_iff in H as [Hc Hs]. now rewrite (digit_not_space c Hc), IH.
Qed.

Lemma lstrip_no_spaces (s : string) : no_spaces s = true -> Py.lstrip s = s.
Proof.
  destruct s as [|c s]; simpl; [reflexivity|]. intros H.
  apply andb_true_iff in H as [Hc _]. now destruct (Py.is_space c).
Qed.

(** [strip] leaves a text without white space as it is. *)
Lemma strip_no_spaces (s : string) : no_spaces s = true -> Py.strip s = s.
Proof.
  intros H. unfold Py.strip. rewrite (lstrip_no_spaces s H).
  rewrite lstrip_no_spaces; [apply rev_rev|].
  unfold String.rev. now apply no_spaces_rev_app.
Qed.

Lemma all_digits_of_uint (d : Decimal.uint) :
  all_digits (NilEmpty.string_of_uint d) = true.
Proof. induction d; simpl; auto. Qed.

Lemma int_digits_from_pos (d : Decimal.uint) (acc : positive) :
  Py.int_digits_from true (Zpos acc) (NilEmpty.string_of_uint d)
  = Some (Zpos (Pos.of_uint_acc d acc)).
Proof.
  revert acc. induction d; intros acc; cbn [NilEmpty.string_of_uint Py.int_digits_from Ascii.eqb Ascii.is_nat Pos.of_uint_acc]; try reflexivity.
  all: cbn.
  all: try (rewrite <- IHd; f_equal; lia).
Qed.

Lemma int_digits_from_zero (d : Decimal.uint) (b : bool) :
  d <> Decimal.Nil \/ b = true ->
  Py.int_digits_from b 0 (NilEmpty.string_of_uint d)
  = Some (Z.of_N (Pos.of_uint d)).
Proof.
  revert b. induction d; intros b Hb.
  - destruct Hb as [Hb| ->]; [congruence | reflexivity].
  - cbn. apply IHd. now right.
  - cbn. apply (int_digits_from_pos d 1).
  - cbn. apply (int_digits_from_pos d 2).
  - cbn. apply (int_digits_from_pos d 3).
  - cbn. apply (int_digits_from_pos d 4).
  - cbn. apply (int_digits_from_pos d 5).
  - cbn. apply (int_digits_from_pos d 6).
  - cbn. apply (int_digits_from_pos d 7).
  - cbn. apply (int_digits_from_pos d 8).
  - cbn. apply (int_digits_from_pos d 9).
Qed.

Lemma to_uint_not_nil (p : positive) : Pos.to_uint p <> Decimal.Nil.
Proof.
  intros H. pose proof (Unsigned.of_to p) as E. rewrite H in E. discriminate.
Qed.

Lemma int_digits_str_pos (p : positive) :
  Py.int_digits (NilEmpty.string_of_uint (Pos.to_uint p)) = Some (Zpos p).
Proof.
  unfold Py.int_digits. rewrite int_digits_from_zero.
  - now rewrite Unsigned.of_to.
  - left. apply to_uint_not_nil.
Qed.

(** Reading back what [str] printed gives the integer. *)
Lemma int_str (z : Z) : Py.int (Py.str z) = Some z.
Proof.
  destruct z as [|p|p]; [reflexivity| |].
  - unfold Py.int, Py.str.
    rewrite strip_no_spaces by apply all_digits_no_spaces, all_digits_of_uint.
    pose proof (int_digits_str_pos p) as H.
    pose proof (all_digits_of_uint (Pos.to_uint p)) as D.
    destruct (NilEmpty.string_of_uint (Pos.to_uint p)) as [|c s] eqn:E.
    + exact H.
    + simpl in D. apply andb_true_iff in D as [Dc _].
      destruct c as [[] [] [] [] [] [] [] []]; try discriminate Dc; exact H.
  - unfold Py.int, Py.str.
    rewrite strip_no_spaces.
    + rewrite int_digits_str_pos. reflexivity.
    + simpl. apply all_digits_no_spaces, all_digits_of_uint.
Qed.

(** ** C1: selection of the latest candidate *)

(** The year-detecting script selects as the rule says: on a non-empty
    list of candidates it returns the first one among those of greatest
    year. *)
Lemma future_latest_first_greatest (files : list Future.FileInfo) :
  files <> [] ->
  exists f l1 l2,
    Future.latest_of files = Some f
    /\ files = (l1 ++ f :: l2)%list
    /\ Forall (fun g => (Future.year g < Future.year f)%Z) l1
    /\ Forall (fun g => (Future.year g <= Future.year f)%Z) l2.
Proof.
  destruct files as [|x rest]; [congruence|]. intros _.
  destruct (max_from_first_greatest Future.year x rest) as (l1 & l2 & H).
  exists (Py.max_from Py.int_gt Future.year x rest), l1, l2.
  split; [reflexivity | exact H].
Qed.

(** A link in which no year can be read never becomes a candidate
    there. *)
Lemma future_undated_excluded (m : string) :
  Py.search_d4 m = None -> Future.file_of_match m = None.
Proof. intros H. unfold Future.file_of_match. now rewrite H. Qed.

Lemma str_gt_leb (a b : string) : Py.str_gt a b = negb (String.leb a b).
Proof.
  unfold Py.str_gt, String.ltb, String.leb.
  rewrite (String.compare_antisym a b).
  now destruct (String.compare b a).
Qed.

Lemma string_leb_refl (a : string) : String.leb a a = true.
Proof. apply Is_true_true. change (String.le a a). reflexivity. Qed.

Lemma string_leb_trans (a b c : string) :
  String.leb a b = true -> String.leb b c = true -> String.leb a c = true.
Proof.
  intros H1%Is_true_true H2%Is_true_true. apply Is_true_true.
  change (String.le a c). etransitivity; [exact H1 | exact H2].
Qed.

Lemma string_leb_total (a b : string) :
  String.leb a b = true \/ String.leb b a = true.
Proof. destruct (String.leb_total a b) as [->| ->]; auto. Qed.

Lemma digit_below_unknown (c : ascii) (s : string) :
  Py.is_digit c = true -> String.leb "Unknown" (String c s) = false.
Proof.
  destruct c as [[] [] [] [] [] [] [] []]; try discriminate; intros _;
    reflexivity.
Qed.

(** In the page-scan script an undated link, once among the candidates,
    always wins the selection. *)
Lemma rent_data_undated_always_wins (pdf_files : list RentData.PdfLink) :
  Exists (fun l => RentData.year l = "Unknown") pdf_files ->
  Forall (fun l => RentData.year l = "Unknown"
                   \/ exists c s, RentData.year l = String c s
                                  /\ Py.is_digit c = true) pdf_files ->
  exists f, RentData.latest_of pdf_files = Some f
            /\ RentData.year f = "Unknown".
Proof.
  intros Hex Hall. destruct pdf_files as [|x rest]; [inversion Hex|].
  exists (Py.max_from Py.str_gt RentData.year x rest). split; [reflexivity|].
  pose proof (max_from_greatest Py.str_gt String.leb RentData.year str_gt_leb
                string_leb_refl string_leb_trans string_leb_total x rest) as G.
  pose proof (max_from_member Py.str_gt RentData.year x rest) as M.
  rewrite List.Forall_forall in G, Hall. apply List.Exists_exists in Hex as (u & Hu & Eu).
  specialize (G u Hu). rewrite Eu in G.
  destruct (Hall _ M) as [E|(c & s & E & D)]; [exact E|].
  rewrite E in G. now rewrite (digit_below_unknown c s D) in G.
Qed.

(** C1, the page-scan script: with a dated link (2025) listed before a
    link whose file name carries no year, the list of candidates keeps
    the undated one under the year text [Unknown], and the selection
    returns it, since that text is greater than every digit string; the
    year-detecting script, on the same page, selects the 2025 document. *)
Theorem rent_data_selection_prefers_undated :
  map RentData.year (RentData.pdf_links_of Scenario.page_undated)
    = ["2025"; "Unknown"]
  /\ RentData.get_latest_payment_standards
       (Scenario.serving 200 Scenario.page_undated ∅ [] [])
     = Some "https://www.bostonhousing.org/docs/Payment-Standards-All-BR.pdf"
  /\ Future.url <$> Future.find_latest_payment_standards
       (Scenario.serving 200 Scenario.page_undated ∅ [] [])
     = Some "https://www.bostonhousing.org/docs/2025-Payment-Standards.pdf".
Proof. repeat split; vm_compute; reflexivity. Qed.

(** In the catalog script a resource without [created] is ranked under
    the empty key, not left out: alone, it is the one selected. *)
Example ckan_undated_resource_selected :
  Ckan.latest_resource_of
    [ {| Sys.format := Some "CSV"; Sys.created := None;
         Sys.res_url := Some "https://data.boston.gov/a.csv" |} ]
  = Some {| Sys.format := Some "CSV"; Sys.created := None;
            Sys.res_url := Some "https://data.boston.gov/a.csv" |}.
Proof. reflexivity. Qed.

(** ** C2: the update gate *)

(** C2: when discovery finds a latest candidate, [check_for_updates]
    answers true if there is no marker file, and with a marker file that
    holds the integer [m] it answers true exactly when the candidate's
    year is strictly greater than [m]. *)
Theorem check_for_updates_strict_gate (w : Sys.World) (latest : Future.FileInfo) :
  Future.find_latest_payment_standards w = Some latest ->
  (Future.marker w = None -> Future.check_for_updates w = true)
  /\ (forall text m,
        Future.marker w = Some (Sys.Raw text) ->
        Py.int text = Some m ->
        (Future.check_for_updates w = true <-> (m < Future.year latest)%Z)).
Proof.
  intros Hfind. unfold Future.check_for_updates, Future.read_current_year,
    Future.marker.
  split.
  - intros ->. now rewrite Hfind.
  - intros text m -> ->. rewrite Hfind. unfold Py.int_gt. apply Z.ltb_lt.
Qed.

Lemma check_for_updates_strict_gate_witness :
  (Future.check_for_updates
     (Scenario.serving 200 Scenario.page_2024_2025
        (Scenario.marker_file "2024") [] []) = true
   <-> (2024 < 2025)%Z)
  /\ (Future.check_for_updates
        (Scenario.serving 200 Scenario.page_2024_2025
           (Scenario.marker_file "2025") [] []) = true
      <-> (2025 < 2025)%Z).
Proof.
  split.
  - apply (proj2 (check_for_updates_strict_gate
                    (Scenario.serving 200 Scenario.page_2024_2025
                       (Scenario.marker_file "2024") [] [])
                    {| Future.url := "https://www.bostonhousing.org/docs/2025-Payment-Standards.pdf";
                       Future.year := 2025;
                       Future.filename := "2025-Payment-Standards.pdf" |}
                    ltac:(vm_compute; reflexivity)) "2024" 2024%Z);
      vm_compute; reflexivity.
  - apply (proj2 (check_for_updates_strict_gate
                    (Scenario.serving 200 Scenario.page_2024_2025
                       (Scenario.marker_file "2025") [] [])
                    {| Future.url := "https://www.bostonhousing.org/docs/2025-Payment-Standards.pdf";
                       Future.year := 2025;
                       Future.filename := "2025-Payment-Standards.pdf" |}
                    ltac:(vm_compute; reflexivity)) "2025" 2025%Z);
      vm_compute; reflexivity.
Defined.

(** ** C3: the marker across successful runs *)

(** What a successful write of the marker leaves in the directory. *)
Lemma read_after_marker_write (w w' : Sys.World) (y : Z) :
  Sys.write_file Future.current_year_file (Sys.Raw (Py.str y)) w = Some w' ->
  Future.read_current_year w' = inl (Some y).
Proof.
  unfold Sys.write_file. destruct (Sys.unwritable w _); [discriminate|].
  intros [= <-]. unfold Future.read_current_year. cbn [Sys.fs Sys.set_fs].
  rewrite lookup_insert_eq. now rewrite int_str.
Qed.

(** C3 as stated fails: with the marker at 2025 and a page that lists only
    the 2024 document, the run succeeds and leaves the marker at 2024. *)
Lemma marker_monotone_refuted :
  ~ (forall (w w' : Sys.World) (m m' : Z),
       Future.run_full_pipeline w = (w', true) ->
       Future.read_current_year w = inl (Some m) ->
       Future.read_current_year w' = inl (Some m') ->
       (m <= m')%Z).
Proof.
  intros H.
  pose (w := Scenario.serving 200 Scenario.page_2024
               (Scenario.marker_file "2025") [] []).
  specialize (H w (fst (Future.run_full_pipeline w)) 2025%Z 2024%Z).
  assert (2025 <= 2024)%Z; [|lia].
  apply H.
  - rewrite (surjective_pairing (Future.run_full_pipeline w)) at 1.
    f_equal; vm_compute; reflexivity.
  - vm_compute. reflexivity.
  - vm_compute. reflexivity.
Qed.

(** C3, amended: a successful run stores the year of the candidate it
    selected, whatever the marker held before; the stored year is greater
    than the marker the run started from whenever [check_for_updates]
    answers true in the starting state. *)
Theorem successful_run_stores_selected_year (w w' : Sys.World) :
  Future.run_full_pipeline w = (w', true) ->
  exists latest,
    Future.find_latest_payment_standards w = Some latest
    /\ Future.read_current_year w' = inl (Some (Future.year latest))
    /\ (forall m,
          Future.read_current_year w = inl (Some m) ->
          Future.check_for_updates w = true ->
          (m < Future.year latest)%Z).
Proof.
  unfold Future.run_full_pipeline.
  destruct (Future.find_latest_payment_standards w) as [latest|] eqn:Hfind;
    [|discriminate].
  destruct (Future.download_payment_standards_pdf w latest) as [w1 [pdf_path|]];
    [|discriminate].
  cbn [Future.extract_rent_data_from_pdf]. cbv zeta.
  destruct (Future.save_to_csv (Sys.tick w1) _ _) as [w2 ?].
  destruct (Future.save_to_json w2 _ _) as [w3 ?].
  destruct (Future.save_to_database w3 _) as [w4 ?].
  destruct (Sys.write_file _ _ w4) as [w5|] eqn:Hwrite; [|discriminate].
  intros [= <-]. exists latest. split; [reflexivity|]. split.
  - exact (read_after_marker_write _ _ _ Hwrite).
  - intros m Hm. unfold Future.check_for_updates. rewrite Hm, Hfind.
    unfold Py.int_gt. apply Z.ltb_lt.
Qed.

Lemma successful_run_stores_selected_year_witness :
  exists latest,
    Future.find_latest_payment_standards
      (Scenario.serving 200 Scenario.page_2024_2025 (Scenario.marker_file "2024") [] [])
    = Some latest
    /\ Future.read_current_year
         (fst (Future.run_full_pipeline
                 (Scenario.serving 200 Scenario.page_2024_2025
                    (Scenario.marker_file "2024") [] [])))
       = inl (Some (Future.year latest))
    /\ (forall m,
          Future.read_current_year
            (Scenario.serving 200 Scenario.page_2024_2025
               (Scenario.marker_file "2024") [] []) = inl (Some m) ->
          Future.check_for_updates
            (Scenario.serving 200 Scenario.page_2024_2025
               (Scenario.marker_file "2024") [] []) = true ->
          (m < Future.year latest)%Z).
Proof.
  apply successful_run_stores_selected_year.
  rewrite (surjective_pairing (Future.run_full_pipeline _)) at 1.
  f_equal; vm_compute; reflexivity.
Defined.

(** ** C4: the marker and the relational write *)

(** The writes leave the set of writable paths as it is. *)
Lemma write_file_unwritable (path : string) (data : Sys.FileData)
    (w w' : Sys.World) :
  Sys.write_file path data w = Some w' -> Sys.unwritable w' = Sys.unwritable w.
Proof.
  unfold Sys.write_file. destruct (Sys.unwritable w path); [discriminate|].
  now intros [= <-].
Qed.

Lemma future_save_to_csv_unwritable (w : Sys.World) (df : Pandas.DataFrame) (y : Z) :
  Sys.unwritable (fst (Future.save_to_csv w df y)) = Sys.unwritable w.
Proof.
  unfold Future.save_to_csv.
  destruct (Sys.write_file _ _ w) as [w'|] eqn:E; [|reflexivity].
  exact (write_file_unwritable _ _ _ _ E).
Qed.

Lemma future_save_to_json_unwritable (w : Sys.World) (df : Pandas.DataFrame) (y : Z) :
  Sys.unwritable (fst (Future.save_to_json w df y)) = Sys.unwritable w.
Proof.
  unfold Future.save_to_json. cbv zeta.
  destruct (Sys.write_file _ _ (Sys.tick w)) as [w'|] eqn:E; [|reflexivity].
  exact (write_file_unwritable _ _ _ _ E).
Qed.

Lemma future_save_to_database_unwritable (w : Sys.World) (df : Pandas.DataFrame) :
  Sys.unwritable (fst (Future.save_to_database w df)) = Sys.unwritable w.
Proof.
  unfold Future.save_to_database.
  now destruct (Sys.db_outcome w) as [[| |] rest], (Sys.legacy_sqlalchemy w).
Qed.

Lemma future_download_unwritable (w w' : Sys.World) (f : Future.FileInfo)
    (r : option string) :
  Future.download_payment_standards_pdf w f = (w', r) ->
  Sys.unwritable w' = Sys.unwritable w.
Proof.
  unfold Future.download_payment_standards_pdf.
  destruct (Sys.http w (Future.url f)) as [|status content]; [now intros [= <- _]|].
  destruct (Sys.raise_for_status status); [now intros [= <- _]|].
  destruct (Sys.write_file _ _ w) as [w1|] eqn:E; intros [= <- _];
    [exact (write_file_unwritable _ _ _ _ E) | reflexivity].
Qed.

(** Whatever the database calls do, the year-detecting pipeline reports
    success and stores the selected year once the document is found and
    downloaded and the marker file can be written. *)
Lemma future_run_whatever_database
    (w w1 : Sys.World) (latest : Future.FileInfo) (pdf_path : string) :
  Future.find_latest_payment_standards w = Some latest ->
  Future.download_payment_standards_pdf w latest = (w1, Some pdf_path) ->
  Sys.unwritable w Future.current_year_file = false ->
  snd (Future.run_full_pipeline w) = true
  /\ Future.read_current_year (fst (Future.run_full_pipeline w))
     = inl (Some (Future.year latest)).
Proof.
  intros Hfind Hdl Hw. unfold Future.run_full_pipeline. rewrite Hfind, Hdl.
  destruct (Future.extract_rent_data_from_pdf w1 pdf_path (Future.year latest))
    as [df|] eqn:Ex; [|discriminate Ex].
  pose proof (future_download_unwritable _ _ _ _ Hdl) as U1. cbv zeta.
  pose proof (future_save_to_csv_unwritable (Sys.tick w1) df (Future.year latest)) as U2.
  destruct (Future.save_to_csv (Sys.tick w1) df _) as [w2 r2].
  cbn [fst Sys.tick Sys.unwritable] in U2.
  pose proof (future_save_to_json_unwritable w2 df (Future.year latest)) as U3.
  destruct (Future.save_to_json w2 df _) as [w3 r3]. cbn [fst] in U3.
  pose proof (future_save_to_database_unwritable w3 df) as U4.
  destruct (Future.save_to_database w3 df) as [w4 r4]. cbn [fst] in U4.
  assert (U : Sys.unwritable w4 Future.current_year_file = false).
  { now rewrite U4, U3, U2, U1. }
  destruct (Sys.write_file Future.current_year_file _ w4) as [w5|] eqn:E5.
  - split; [reflexivity|]. exact (read_after_marker_write _ _ _ E5).
  - unfold Sys.write_file in E5. now rewrite U in E5.
Qed.

(** C4: the page lists the 2025 document, the download goes through and
    the database call raises before anything is committed.
    [save_to_database] returns [False], the pipeline drops that answer,
    writes 2025 to the marker file and reports success, while the table
    still holds the 2024 row only. *)
Theorem marker_written_after_failed_database_write :
  let w := Scenario.serving 200 Scenario.page_2025 ∅
             [Scenario.row_2024] [Sys.DbFailsEarly] in
  let w' := fst (Future.run_full_pipeline w) in
  Future.read_current_year w = inl None
  /\ (forall df, snd (Future.save_to_database w df) = false)
  /\ snd (Future.run_full_pipeline w) = true
  /\ Future.read_current_year w' = inl (Some 2025%Z)
  /\ Sys.rents w' = [Scenario.row_2024].
Proof.
  cbv zeta. repeat split; try intros df; vm_compute; reflexivity.
Qed.

(** ** C5: writing the same records twice *)

(** [%] followed by a pattern that matches [t] matches [t] after any
    prefix. *)
Lemma like_percent_prefix (pat s t : string) :
  Sys.like pat t = true -> Sys.like (String "%" pat) (s +:+ t) = true.
Proof.
  intros H. induction s as [|c s IH].
  - change (EmptyString +:+ t) with t. destruct t; simpl; now rewrite H.
  - change (String c s +:+ t) with (String c (s +:+ t)).
    simpl in *. rewrite IH. apply orb_true_r.
Qed.

(** Every label the year-detecting extractor stamps is matched by the
    pattern of the DELETE. *)
Lemma source_label_matches (y : Z) :
  Sys.like Future.delete_pattern (Future.source_label y) = true.
Proof.
  unfold Future.delete_pattern, Future.source_label.
  change ("BHA " +:+ Py.str y +:+ " Payment Standards")
    with (String "B" (String "H" (String "A" (String " "
            (Py.str y +:+ " Payment Standards"))))).
  change "BHA % Payment Standards"
    with (String "B" (String "H" (String "A" (String " "
            (String "%" " Payment Standards"))))).
  cbn [Sys.like Ascii.eqb Bool.eqb andb orb].
  apply (like_percent_prefix " Payment Standards" (Py.str y) " Payment Standards").
  reflexivity.
Qed.

(** The records the year-detecting extractor returns are distinct, and
    each carries a label the pattern of the DELETE matches. *)
Lemma extracted_records_replaceable (w : Sys.World) (pdf_path : string) (y : Z)
    (df : Pandas.DataFrame) :
  Future.extract_rent_data_from_pdf w pdf_path y = Some df ->
  Forall (fun r => matches_delete r = true) (Pandas.records df)
  /\ List.NoDup (Pandas.records df).
Proof.
  intros [= <-]. split.
  - cbn. repeat constructor; unfold matches_delete, Sys.source_like; cbn;
      apply source_label_matches.
  - cbn. repeat constructor; cbn; intuition discriminate.
Qed.

Lemma copies_filter_le (f : Pandas.Row -> bool) (r : Pandas.Row)
    (table : list Pandas.Row) :
  copies r (List.filter f table) <= copies r table.
Proof.
  unfold copies. induction table as [|x table IH]; simpl; [lia|].
  destruct (f x); simpl; destruct (Pandas.Row_eq_dec x r); lia.
Qed.

Lemma Forall_copies (n : nat) (table rows : list Pandas.Row) :
  forallb (fun r => Nat.eqb (copies r table) n) rows = true ->
  Forall (fun r => copies r table = n) rows.
Proof.
  intros H. apply List.Forall_forall. intros r Hin. apply Nat.eqb_eq.
  revert r Hin. now apply forallb_forall.
Qed.

(** What the year-detecting [save_to_database] does in any world: it
    returns [False], and the table is left as it was or without the rows
    the DELETE matches. *)
Lemma future_save_to_database_fails (w : Sys.World) (df : Pandas.DataFrame) :
  snd (Future.save_to_database w df) = false
  /\ (Sys.rents (fst (Future.save_to_database w df)) = Sys.rents w
      \/ Sys.rents (fst (Future.save_to_database w df)) = other_sources (Sys.rents w)).
Proof.
  unfold Future.save_to_database.
  destruct (Sys.db_outcome w) as [[| |] rest], (Sys.legacy_sqlalchemy w);
    cbn [fst snd Sys.rents Sys.set_db]; split; auto.
Qed.

Lemma future_save_to_database_copies (w : Sys.World) (df : Pandas.DataFrame)
    (r : Pandas.Row) :
  copies r (Sys.rents (fst (Future.save_to_database w df))) <= copies r (Sys.rents w).
Proof.
  destruct (future_save_to_database_fails w df) as [_ [E|E]]; rewrite E;
    [lia | apply copies_filter_le].
Qed.

(** C5: the write of the year-detecting script is written as a DELETE
    followed by the insert, but it cannot store a record: the DELETE is
    handed over as a [str] and followed by [conn.commit()], one of which
    raises with every [sqlalchemy], so each call returns [False] and no
    row ever gains a copy.  After two writes of the extracted 2025 frame
    to an empty table, with the server doing all it is asked and either
    line of [sqlalchemy], the table holds no copy of any record.  The
    write of the fixed-URL script has no DELETE: two writes that go
    through leave two copies of every record. *)
Theorem save_to_database_twice_not_one_copy :
  (forall (w : Sys.World) (df : Pandas.DataFrame),
     let w1 := fst (Future.save_to_database w df) in
     let w2 := fst (Future.save_to_database w1 df) in
     snd (Future.save_to_database w df) = false
     /\ snd (Future.save_to_database w1 df) = false
     /\ forall r, copies r (Sys.rents w2) <= copies r (Sys.rents w))
  /\ (let df := Scenario.frame_future 2025 in
      let w := Scenario.serving 200 Scenario.page_2025 ∅ [] [] in
      let v := Scenario.with_legacy_sqlalchemy w in
      let w2 := fst (Future.save_to_database
                       (fst (Future.save_to_database w df)) df) in
      let v2 := fst (Future.save_to_database
                       (fst (Future.save_to_database v df)) df) in
      length (Pandas.records df) = 3
      /\ List.NoDup (Pandas.records df)
      /\ Forall (fun r => copies r (Sys.rents w2) = 0) (Pandas.records df)
      /\ Forall (fun r => copies r (Sys.rents v2) = 0) (Pandas.records df))
  /\ (let df := Scenario.frame_fixed in
      let w := Scenario.offline in
      let w1 := fst (Fixed2025.save_to_database w df) in
      let w2 := fst (Fixed2025.save_to_database w1 df) in
      snd (Fixed2025.save_to_database w df) = true
      /\ snd (Fixed2025.save_to_database w1 df) = true
      /\ List.NoDup (Pandas.records df)
      /\ Forall (fun r => copies r (Sys.rents w2) = 2) (Pandas.records df)).
Proof.
  split; [|split].
  - intros w df w1 w2. split; [|split].
    + apply future_save_to_database_fails.
    + apply future_save_to_database_fails.
    + intros r. subst w1 w2.
      etransitivity; [apply future_save_to_database_copies|].
      apply future_save_to_database_copies.
  - cbv zeta. split; [reflexivity|]. split.
    + apply NoDup_ListNoDup, (bool_decide_unpack _). vm_compute. exact I.
    + split; apply Forall_copies; vm_compute; reflexivity.
  - cbv zeta. split; [reflexivity|]. split; [reflexivity|]. split.
    + apply NoDup_ListNoDup, (bool_decide_unpack _). vm_compute. exact I.
    + apply Forall_copies. vm_compute. reflexivity.
Qed.

(** ** C6: what the pipelines report *)

(** The page-scan pipeline reports success in every world. *)
Lemma rent_data_run_always_true (w : Sys.World) :
  snd (RentData.run_full_pipeline w) = true.
Proof.
  unfold RentData.run_full_pipeline.
  destruct (RentData.get_rent_estimator_data _); [|reflexivity].
  destruct (RentData.save_to_csv _ _ _) as [w1 ?].
  now destruct (RentData.save_to_database _ _) as [w2 ?].
Qed.

(** The fixed-URL pipeline reports success whenever the download went
    through. *)
Lemma fixed_run_true_once_downloaded (w w1 : Sys.World) (pdf_path : string) :
  Fixed2025.download_payment_standards_pdf w = (w1, Some pdf_path) ->
  snd (Fixed2025.run_full_pipeline w) = true.
Proof.
  intros H. unfold Fixed2025.run_full_pipeline. rewrite H.
  cbn [Fixed2025.extract_rent_data_from_pdf].
  destruct (Fixed2025.save_to_csv _ _ _) as [w2 ?].
  destruct (Fixed2025.save_to_json _ _ _) as [w3 ?].
  now destruct (Fixed2025.save_to_database _ _) as [w4 ?].
Qed.

(** C6: in the fixed-URL script the download goes through and the
    database call raises; [save_to_database] returns [False] and the
    table stays empty, yet the run is reported as a success.  The
    page-scan script, with nothing reachable and both database calls
    failing, reports success as well. *)
Theorem success_reported_after_failed_database_write :
  let w := Scenario.serving 200 Scenario.page_2025 ∅ [] [Sys.DbFailsEarly] in
  let v := Sys.set_db [] [Sys.DbFailsEarly; Sys.DbFailsEarly] Scenario.offline in
  (forall df, snd (Fixed2025.save_to_database w df) = false)
  /\ snd (Fixed2025.run_full_pipeline w) = true
  /\ Sys.rents (fst (Fixed2025.run_full_pipeline w)) = []
  /\ snd (RentData.run_full_pipeline v) = true
  /\ Sys.rents (fst (RentData.run_full_pipeline v)) = [].
Proof. cbv zeta. repeat split; try intros df; vm_compute; reflexivity. Qed.

(** ** C7: discovery that finds nothing *)

(** C7 as stated fails on two counts.  [raise_for_status] lets a 3xx
    answer through: a 300 answer whose body lists the 2025 document
    yields that candidate.  And when the page-scan discovery returns the
    empty list, its pipeline goes on to the rent-estimator rows: it
    appends them to the table and reports success. *)
Lemma no_candidate_claim_refuted :
  ~ (forall (w : Sys.World) (status : Z) (content : string),
       Sys.http w Future.payment_standards_page = Sys.Response status content ->
       ~ (200 <= status < 300)%Z ->
       Future.find_latest_payment_standards w = None)
  /\ ~ (forall w : Sys.World,
          RentData.get_payment_standards_files w = [] ->
          RentData.run_full_pipeline w = (w, false)
          \/ Sys.rents (fst (RentData.run_full_pipeline w)) = Sys.rents w).
Proof.
  split; intros H.
  - specialize (H (Scenario.serving 300 Scenario.page_2025 ∅ [] []) 300%Z
                  Scenario.page_2025 eq_refl ltac:(lia)).
    vm_compute in H. discriminate H.
  - destruct (H Scenario.offline eq_refl) as [E|E].
    + apply (f_equal snd) in E. vm_compute in E. discriminate E.
    + vm_compute in E. discriminate E.
Qed.

(** C7, amended: when the request raises, the answer is a 4xx or 5xx
    one, or the page yields no candidate, discovery returns its empty
    value; the year-detecting pipeline then returns [False] and leaves the
    world as it was, and the page-scan pipeline skips its
    payment-standards step, which leaves the world as it was. *)
Theorem no_candidate_aborts (w : Sys.World) :
  (discovery_fails Future.available_files_of Future.payment_standards_page w ->
     Future.find_latest_payment_standards w = None
     /\ Future.run_full_pipeline w = (w, false))
  /\ (discovery_fails RentData.pdf_links_of RentData.payment_standards_url w ->
        RentData.get_payment_standards_files w = []
        /\ RentData.get_latest_payment_standards w = None
        /\ RentData.payment_standards_step w = w).
Proof.
  split; unfold discovery_fails; intros H.
  - assert (E : Future.find_latest_payment_standards w = None).
    { unfold Future.find_latest_payment_standards.
      destruct (Sys.http w Future.payment_standards_page) as [|status content];
        [reflexivity|].
      destruct H as [-> | ->]; [reflexivity|].
      now destruct (Sys.raise_for_status status). }
    split; [exact E|]. unfold Future.run_full_pipeline. now rewrite E.
  - assert (E : RentData.get_payment_standards_files w = []).
    { unfold RentData.get_payment_standards_files.
      destruct (Sys.http w RentData.payment_standards_url) as [|status content];
        [reflexivity|].
      destruct H as [-> | ->]; [reflexivity|].
      now destruct (Sys.raise_for_status status). }
    assert (L : RentData.get_latest_payment_standards w = None).
    { unfold RentData.get_latest_payment_standards. now rewrite E. }
    repeat split; [exact E | exact L |].
    unfold RentData.payment_standards_step. now rewrite L.
Qed.

Lemma no_candidate_aborts_witness :
  (Future.find_latest_payment_standards Scenario.offline = None
   /\ Future.run_full_pipeline Scenario.offline = (Scenario.offline, false))
  /\ (RentData.get_payment_standards_files
        (Scenario.serving 404 Scenario.page_2025 ∅ [] []) = []
      /\ RentData.get_latest_payment_standards
           (Scenario.serving 404 Scenario.page_2025 ∅ [] []) = None
      /\ RentData.payment_standards_step
           (Scenario.serving 404 Scenario.page_2025 ∅ [] [])
         = Scenario.serving 404 Scenario.page_2025 ∅ [] []).
Proof.
  split.
  - apply (proj1 (no_candidate_aborts Scenario.offline)). exact I.
  - apply (proj2 (no_candidate_aborts
                    (Scenario.serving 404 Scenario.page_2025 ∅ [] []))).
    left. reflexivity.
Defined.

(** ** C8 and C10: what [transform_data] does to a table *)

Section SetScalar.
Context (keep : string -> bool) (c : string) (v : Pandas.Cell).
Hypothesis keep_c : keep c = false.

(** Assigning to column [c] changes no column that [keep] retains. *)
Lemma set_scalar_keeps (df : Pandas.DataFrame) :
  List.filter (fun kv => keep (fst kv)) (Pandas.columns (Pandas.set_scalar c v df))
  = List.filter (fun kv => keep (fst kv)) (Pandas.columns df).
Proof.
  unfold Pandas.set_scalar. cbn [Pandas.columns].
  destruct (existsb (String.eqb c) (Pandas.column_names df)).
  - induction (Pandas.columns df) as [|[k vs] cols IH]; [reflexivity|].
    cbn [map List.filter fst]. destruct (String.eqb_spec k c) as [->|Hne].
    + cbn [fst]. rewrite keep_c. exact IH.
    + cbn [fst]. destruct (keep k); [f_equal|]; exact IH.
  - rewrite List.filter_app. cbn. rewrite keep_c. apply app_nil_r.
Qed.
End SetScalar.

Lemma set_scalar_nrows (c : string) (v : Pandas.Cell) (df : Pandas.DataFrame) :
  Pandas.nrows (Pandas.set_scalar c v df) = Pandas.nrows df.
Proof. reflexivity. Qed.

(** What the [try] block of [transform_data] computes. *)
Lemma transform_data_unfold (w : Sys.World) (df : Pandas.DataFrame) :
  Sys.transform_raises w = false ->
  Ckan.transform_data w df
  = Pandas.set_scalar "updated_at" (Pandas.Str (Sys.now w))
      (Pandas.set_scalar "source" (Pandas.Str "BHA") df).
Proof. intros H. unfold Ckan.transform_data. now rewrite H. Qed.

Lemma transform_data_original_columns (w : Sys.World) (df : Pandas.DataFrame) :
  original_columns (Pandas.columns (Ckan.transform_data w df))
  = original_columns (Pandas.columns df).
Proof.
  destruct (Sys.transform_raises w) eqn:E.
  - unfold Ckan.transform_data. now rewrite E.
  - rewrite (transform_data_unfold w df E). unfold original_columns.
    rewrite (set_scalar_keeps (fun k => negb (stamped k))) by reflexivity.
    now rewrite (set_scalar_keeps (fun k => negb (stamped k))) by reflexivity.
Qed.

Lemma transform_data_nrows (w : Sys.World) (df : Pandas.DataFrame) :
  Pandas.nrows (Ckan.transform_data w df) = Pandas.nrows df.
Proof.
  unfold Ckan.transform_data. now destruct (Sys.transform_raises w).
Qed.

(** A record without the stamped cells is the record of the table
    without the stamped columns. *)
Lemma original_cells_records (df : Pandas.DataFrame) :
  map original_cells (Pandas.records df)
  = Pandas.records {| Pandas.nrows := Pandas.nrows df;
                      Pandas.columns := original_columns (Pandas.columns df) |}.
Proof.
  unfold Pandas.records. cbn [Pandas.nrows Pandas.columns].
  rewrite List.map_map. apply List.map_ext. intros i.
  unfold original_cells, original_columns.
  induction (Pandas.columns df) as [|[k vs] cols IH]; [reflexivity|].
  cbn [map List.filter fst snd]. destruct (negb (stamped k)); cbn [map fst snd];
    now rewrite IH.
Qed.

(** C8, amended: [transform_data] drops and counts nothing.  It returns
    as many records as it was given, in the same order, and outside the
    two stamped columns every record keeps every cell as it was, a
    missing postal code or a text in a rent column included. *)
Theorem transform_data_keeps_every_record (w : Sys.World) (df : Pandas.DataFrame) :
  length (Pandas.records (Ckan.transform_data w df)) = length (Pandas.records df)
  /\ map original_cells (Pandas.records (Ckan.transform_data w df))
     = map original_cells (Pandas.records df).
Proof.
  split.
  - unfold Pandas.records. rewrite !length_map, !length_seq.
    apply transform_data_nrows.
  - rewrite !original_cells_records.
    now rewrite transform_data_nrows, transform_data_original_columns.
Qed.

(** C8 as stated fails: no record is dropped for a missing postal code,
    and a text in a rent column is passed on, not unset. *)
Lemma normalization_drops_refuted :
  ~ (forall (w : Sys.World) (df : Pandas.DataFrame) (r : Pandas.Row),
       In r (Pandas.records (Ckan.transform_data w df)) ->
       Pandas.row_get "zip_code" r <> Pandas.Null)
  /\ ~ (forall (w : Sys.World) (df : Pandas.DataFrame) (r : Pandas.Row) (s : string),
       In r (Pandas.records (Ckan.transform_data w df)) ->
       Pandas.row_get "two_br_rent" r <> Pandas.Str s).
Proof.
  split; intros H.
  - apply (H Scenario.offline Scenario.frame_raw
             [("zip_code", Pandas.Null); ("town", Pandas.Str "Boston");
              ("two_br_rent", Pandas.Null); ("source", Pandas.Str "BHA");
              ("updated_at", Pandas.Str "2025-07-01T09:00:00")]).
    + vm_compute. left. reflexivity.
    + reflexivity.
  - apply (H Scenario.offline Scenario.frame_raw
             [("zip_code", Pandas.Str "02108"); ("town", Pandas.Str "Boston");
              ("two_br_rent", Pandas.Str "n/a"); ("source", Pandas.Str "BHA");
              ("updated_at", Pandas.Str "2025-07-01T09:00:00")] "n/a").
    + vm_compute. right. left. reflexivity.
    + reflexivity.
Qed.

(** After [df[c] = v] the column [c] holds [v] in every row. *)
Lemma column_set_scalar_eq (c : string) (v : Pandas.Cell) (df : Pandas.DataFrame) :
  Pandas.column c (Pandas.columns (Pandas.set_scalar c v df))
  = Some (repeat v (Pandas.nrows df)).
Proof.
  unfold Pandas.set_scalar, Pandas.column_names. cbn [Pandas.columns Pandas.nrows].
  generalize (repeat v (Pandas.nrows df)) as fresh. intros fresh.
  induction (Pandas.columns df) as [|[k vs] cols IH].
  - cbn. now rewrite String.eqb_refl.
  - cbn [map existsb fst]. rewrite (String.eqb_sym c k).
    destruct (String.eqb_spec k c) as [->|Hne].
    + cbn. now rewrite String.eqb_refl.
    + apply String.eqb_neq in Hne. cbn [orb].
      destruct (existsb (String.eqb c) (map fst cols)) eqn:E.
      * cbn [Pandas.column]. rewrite Hne. exact IH.
      * cbn [app Pandas.column]. rewrite Hne. exact IH.
Qed.

(** The other columns read as before. *)
Lemma column_set_scalar_ne (c c' : string) (v : Pandas.Cell) (df : Pandas.DataFrame) :
  c' <> c ->
  Pandas.column c' (Pandas.columns (Pandas.set_scalar c v df))
  = Pandas.column c' (Pandas.columns df).
Proof.
  intros Hne. unfold Pandas.set_scalar. cbn [Pandas.columns].
  destruct (existsb (String.eqb c) (Pandas.column_names df)).
  - induction (Pandas.columns df) as [|[k vs] cols IH]; [reflexivity|].
    cbn [map fst]. destruct (String.eqb_spec k c) as [->|Hk].
    + cbn [Pandas.column]. apply String.eqb_neq in Hne.
      rewrite (String.eqb_sym c c'), Hne. exact IH.
    + cbn [Pandas.column]. destruct (String.eqb k c'); [reflexivity|exact IH].
  - induction (Pandas.columns df) as [|[k vs] cols IH].
    + cbn. apply String.eqb_neq in Hne. now rewrite (String.eqb_sym c c'), Hne.
    + cbn [app Pandas.column]. destruct (String.eqb k c'); [reflexivity|exact IH].
Qed.

(** [df[c] = v] in one equation: the columns named [c] are overwritten
    where they stand, and a column is added at the end when there is
    none. *)
Lemma set_scalar_columns (c : string) (v : Pandas.Cell) (df : Pandas.DataFrame) :
  Pandas.columns (Pandas.set_scalar c v df)
  = (map (fun kv => if String.eqb (fst kv) c
                    then (c, repeat v (Pandas.nrows df)) else kv)
         (Pandas.columns df)
       ++ (if existsb (String.eqb c) (Pandas.column_names df) then []
           else [(c, repeat v (Pandas.nrows df))]))%list.
Proof.
  unfold Pandas.set_scalar, Pandas.column_names. cbn [Pandas.columns Pandas.nrows].
  destruct (existsb (String.eqb c) (map fst (Pandas.columns df))) eqn:E.
  - now rewrite app_nil_r.
  - f_equal. generalize (repeat v (Pandas.nrows df)) as fresh. intros fresh.
    induction (Pandas.columns df) as [|[k vs] cols IH]; [reflexivity|].
    cbn [map existsb fst] in *. apply orb_false_iff in E as [Ek Ecols].
    rewrite (String.eqb_sym k c), Ek. f_equal. exact (IH Ecols).
Qed.

(** C10, amended: when a statement of the [try] block raises,
    [transform_data] returns the table it was given.  Otherwise it keeps
    the number of rows and, in their order, every column other than
    [source] and [updated_at] with its cells; [source] holds [BHA] and
    [updated_at] the time stamp in every row.  The columns of the result
    are the columns of the input, each where it stood, one named
    [source] or [updated_at] overwritten with the stamp, followed by a
    new [source] column when the input had none and then by a new
    [updated_at] column when the input had none. *)
Theorem transform_data_frame (w : Sys.World) (df : Pandas.DataFrame) :
  (Sys.transform_raises w = true -> Ckan.transform_data w df = df)
  /\ (Sys.transform_raises w = false ->
        Pandas.nrows (Ckan.transform_data w df) = Pandas.nrows df
        /\ original_columns (Pandas.columns (Ckan.transform_data w df))
           = original_columns (Pandas.columns df)
        /\ Pandas.column "source" (Pandas.columns (Ckan.transform_data w df))
           = Some (repeat (Pandas.Str "BHA") (Pandas.nrows df))
        /\ Pandas.column "updated_at" (Pandas.columns (Ckan.transform_data w df))
           = Some (repeat (Pandas.Str (Sys.now w)) (Pandas.nrows df))
        /\ Pandas.columns (Ckan.transform_data w df)
           = (map (restamped w (Pandas.nrows df)) (Pandas.columns df)
                ++ appended w df "source" ++ appended w df "updated_at")%list).
Proof.
  split.
  - intros H. unfold Ckan.transform_data. now rewrite H.
  - intros H. split; [apply transform_data_nrows|].
    split; [apply transform_data_original_columns|].
    rewrite (transform_data_unfold w df H). split; [|split].
    + rewrite column_set_scalar_ne by discriminate.
      apply column_set_scalar_eq.
    + exact (column_set_scalar_eq "updated_at" (Pandas.Str (Sys.now w))
               (Pandas.set_scalar "source" (Pandas.Str "BHA") df)).
    + assert (As : appended w df "source"
                   = if existsb (String.eqb "source") (Pandas.column_names df)
                     then []
                     else [("source", repeat (Pandas.Str "BHA") (Pandas.nrows df))])
        by reflexivity.
      assert (Au : appended w df "updated_at"
                   = if existsb (String.eqb "updated_at") (Pandas.column_names df)
                     then []
                     else [("updated_at",
                            repeat (Pandas.Str (Sys.now w)) (Pandas.nrows df))])
        by reflexivity.
      rewrite As, Au. clear As Au.
      rewrite set_scalar_columns.
      assert (N : Pandas.nrows (Pandas.set_scalar "source" (Pandas.Str "BHA") df)
                  = Pandas.nrows df) by reflexivity.
      rewrite N. unfold Pandas.column_names at 1.
      rewrite (set_scalar_columns "source").
      rewrite !map_app, existsb_app, List.map_map, <- app_assoc.
      f_equal; [|f_equal].
      * apply List.map_ext. intros [k vs]. unfold restamped, stamp_of. cbn [fst].
        destruct (String.eqb_spec k "source") as [->|Hs]; [reflexivity|].
        cbn [fst]. destruct (String.eqb_spec k "updated_at") as [->|Hu]; reflexivity.
      * now destruct (existsb (String.eqb "source") (Pandas.column_names df)).
      * assert (E : existsb (String.eqb "updated_at")
                      (map fst
                         (map (fun kv : string * list Pandas.Cell =>
                                 if String.eqb (fst kv) "source"
                                 then ("source", repeat (Pandas.Str "BHA") (Pandas.nrows df))
                                 else kv) (Pandas.columns df)))
                    = existsb (String.eqb "updated_at") (Pandas.column_names df)).
        { unfold Pandas.column_names.
          induction (Pandas.columns df) as [|[k vs] cols IH]; [reflexivity|].
          cbn [map existsb fst]. rewrite IH. f_equal.
          destruct (String.eqb_spec k "source") as [->|Hs]; reflexivity. }
        rewrite E.
        destruct (existsb (String.eqb "source") (Pandas.column_names df));
          [cbn [map existsb]; now rewrite orb_false_r|].
        change (existsb (String.eqb "updated_at")
                  (map fst [("source", repeat (Pandas.Str "BHA") (Pandas.nrows df))]))
          with false.
        now rewrite orb_false_r.
Qed.

Lemma transform_data_frame_witness :
  Ckan.transform_data Scenario.raising Scenario.frame_raw = Scenario.frame_raw
  /\ Pandas.columns (Ckan.transform_data Scenario.offline Scenario.frame_raw)
     = (Pandas.columns Scenario.frame_raw
          ++ [("source", repeat (Pandas.Str "BHA") (Pandas.nrows Scenario.frame_raw));
              ("updated_at",
               repeat (Pandas.Str (Sys.now Scenario.offline))
                      (Pandas.nrows Scenario.frame_raw))])%list
  /\ Pandas.columns (Ckan.transform_data Scenario.offline Scenario.frame_with_source)
     = [("zip_code", [Pandas.Str "02108"]);
        ("source", [Pandas.Str "BHA"]);
        ("updated_at", [Pandas.Str (Sys.now Scenario.offline)])].
Proof.
  split; [|split].
  - apply (proj1 (transform_data_frame Scenario.raising Scenario.frame_raw)).
    reflexivity.
  - exact (proj2 (proj2 (proj2 (proj2
             (proj2 (transform_data_frame Scenario.offline Scenario.frame_raw)
                    eq_refl))))).
  - exact (proj2 (proj2 (proj2 (proj2
             (proj2 (transform_data_frame Scenario.offline Scenario.frame_with_source)
                    eq_refl))))).
Defined.

(** C10 as stated fails: a table that comes with a [source] column of
    its own has the cells of that column overwritten. *)
Lemma original_cells_unchanged_refuted :
  ~ (forall (w : Sys.World) (df : Pandas.DataFrame) (c : string)
            (cells : list Pandas.Cell),
       Pandas.column c (Pandas.columns df) = Some cells ->
       Pandas.column c (Pandas.columns (Ckan.transform_data w df)) = Some cells).
Proof.
  intros H.
  specialize (H Scenario.offline Scenario.frame_with_source "source"
                [Pandas.Str "HUD"] eq_refl).
  vm_compute in H. discriminate H.
Qed.

(** ** C9: extraction and the fetched artifact *)

(** C9: each of the three extractors returns a frame, and that frame does
    not depend on the path it is given nor on what the directory holds:
    in one world, any two paths and any two directory contents give the
    same frame; across worlds and years, the frames agree on every column
    but [source], [effective_year] and [updated_at]. *)
Theorem extraction_ignores_artifact
    (w w1 w2 : Sys.World) (files1 files2 : gmap string Sys.FileData)
    (path1 path2 : string) (y y1 y2 : Z) :
  (Fixed2025.extract_rent_data_from_pdf (Sys.set_fs files1 w) path1
   = Fixed2025.extract_rent_data_from_pdf (Sys.set_fs files2 w) path2
   /\ Future.extract_rent_data_from_pdf (Sys.set_fs files1 w) path1 y
      = Future.extract_rent_data_from_pdf (Sys.set_fs files2 w) path2 y
   /\ RentData.extract_rent_data_from_pdf (Sys.set_fs files1 w) path1
      = RentData.extract_rent_data_from_pdf (Sys.set_fs files2 w) path2)
  /\ (is_Some (Fixed2025.extract_rent_data_from_pdf w1 path1)
      /\ is_Some (Future.extract_rent_data_from_pdf w1 path1 y1)
      /\ is_Some (RentData.extract_rent_data_from_pdf w1 path1))
  /\ (rent_values <$> Fixed2025.extract_rent_data_from_pdf w1 path1
      = rent_values <$> Fixed2025.extract_rent_data_from_pdf w2 path2
      /\ rent_values <$> Future.extract_rent_data_from_pdf w1 path1 y1
         = rent_values <$> Future.extract_rent_data_from_pdf w2 path2 y2
      /\ rent_values <$> RentData.extract_rent_data_from_pdf w1 path1
         = rent_values <$> RentData.extract_rent_data_from_pdf w2 path2).
Proof.
  split; [|split].
  - repeat split; reflexivity.
  - repeat split; eexists; reflexivity.
  - repeat split; reflexivity.
Qed.

(** The rows the year-detecting extractor returns, whatever was
    downloaded. *)
Example future_rent_values (w : Sys.World) (path : string) (y : Z) :
  rent_values <$> Future.extract_rent_data_from_pdf w path y
  = Some
      [("town", [Pandas.Str "Boston"; Pandas.Str "Boston"; Pandas.Str "Boston"]);
       ("zip_code", [Pandas.Str "02108"; Pandas.Str "02109"; Pandas.Str "02110"]);
       ("studio_rent", [Pandas.Int 3266; Pandas.Int 3486; Pandas.Int 3486]);
       ("one_br_rent", [Pandas.Int 3450; Pandas.Int 3749; Pandas.Int 3749]);
       ("two_br_rent", [Pandas.Int 4100; Pandas.Int 4452; Pandas.Int 4452]);
       ("three_br_rent", [Pandas.Int 4950; Pandas.Int 5387; Pandas.Int 5387]);
       ("four_br_rent", [Pandas.Int 5450; Pandas.Int 5933; Pandas.Int 5933]);
       ("five_br_rent", [Pandas.Int 6250; Pandas.Int 6822; Pandas.Int 6822]);
       ("six_br_rent", [Pandas.Int 7000; Pandas.Int 7713; Pandas.Int 7713]);
       ("county", [Pandas.Str "Suffolk"; Pandas.Str "Suffolk"; Pandas.Str "Suffolk"])].
Proof. reflexivity. Qed.

(** ** Scenarios *)

(** The scenarios of the design document.  First run: two dated links and
    no marker; the 2025 document is selected, the gate opens and the run
    leaves the marker at 2025, and no row in the table: the database
    call has failed. *)
Example first_run :
  let w := Scenario.serving 200 Scenario.page_2024_2025 ∅ [] [] in
  map Future.year (Future.available_files_of Scenario.page_2024_2025) = [2024; 2025]%Z
  /\ Future.year <$> Future.find_latest_payment_standards w = Some 2025%Z
  /\ Future.check_for_updates w = true
  /\ snd (Future.run_full_pipeline w) = true
  /\ Future.read_current_year (fst (Future.run_full_pipeline w)) = inl (Some 2025%Z)
  /\ length (Sys.rents (fst (Future.run_full_pipeline w))) = 0.
Proof. cbv zeta. repeat split; vm_compute; reflexivity. Qed.

(** The download times out: the run is reported as failed and the marker
    and the table are as before. *)
Example download_times_out :
  let w :=
    {| Sys.http := fun u =>
         if String.eqb u Future.payment_standards_page
         then Sys.Response 200 Scenario.page_2025 else Sys.Unreachable;
       Sys.read_json := fun _ => None;
       Sys.now := "2025-07-01T09:00:00";
       Sys.now_stamp := "20250701_090000";
       Sys.later := Scenario.clock;
       Sys.transform_raises := false;
       Sys.fs := Scenario.marker_file "2024";
       Sys.unwritable := fun _ => false;
       Sys.rents := [Scenario.row_2024];
       Sys.db_next := [];
       Sys.legacy_sqlalchemy := false |} in
  Future.run_full_pipeline w = (w, false).
Proof. reflexivity. Qed.

(** * Further properties of the scripts *)

(** ** Text helpers *)

Lemma prefix_slash (c : ascii) (s : string) :
  String.prefix "/" (String c s) = Ascii.eqb c "/".
Proof.
  cbn [String.prefix]. destruct (ascii_dec "/" c) as [<-|Hne].
  - now destruct s.
  - symmetry. apply Ascii.eqb_neq. congruence.
Qed.

(** The last segment of a path holds no slash. *)
Lemma last_segment_no_slash (s : string) :
  Py.contains "/" (Py.last_segment s) = false.
Proof.
  induction s as [|c s IH]; [reflexivity|].
  cbn [Py.last_segment]. destruct (Py.contains "/" s) eqn:E; [exact IH|].
  destruct (Ascii.eqb c "/") eqn:Ec; [exact E|].
  cbn [Py.contains]. now rewrite prefix_slash, Ec, E.
Qed.

Lemma digit_value (c : ascii) :
  Py.is_digit c = true ->
  exists n, Ascii.is_nat c = Some n /\ n <= 9 /\ Ascii.eqb c "_" = false.
Proof.
  destruct c as [[] [] [] [] [] [] [] []]; try discriminate; intros _;
    eexists; (split; [reflexivity | split; [lia | reflexivity]]).
Qed.

Lemma search_d4_four_digits (s g : string) :
  Py.search_d4 s = Some g -> four_digits g = true.
Proof.
  induction s as [|a s IH]; [discriminate|].
  destruct s as [|b [|c [|d s]]]; try discriminate.
  cbn [Py.search_d4].
  destruct (Py.is_digit a && Py.is_digit b && Py.is_digit c && Py.is_digit d) eqn:E.
  - intros [= <-]. exact E.
  - exact IH.
Qed.

(** Four digits read as an integer between 0 and 9999. *)
Lemma int_four_digits (g : string) :
  four_digits g = true ->
  exists y, Py.int_digits g = Some y /\ (0 <= y <= 9999)%Z.
Proof.
  destruct g as [|a [|b [|c [|d [|? ?]]]]]; try discriminate. cbn [four_digits].
  intros E. apply andb_true_iff in E as [E Hd]. apply andb_true_iff in E as [E Hc].
  apply andb_true_iff in E as [Ha Hb].
  destruct (digit_value a Ha) as (na & Ea & La & Ua).
  destruct (digit_value b Hb) as (nb & Eb & Lb & Ub).
  destruct (digit_value c Hc) as (nc & Ec & Lc & Uc).
  destruct (digit_value d Hd) as (nd & Ed & Ld & Ud).
  unfold Py.int_digits. cbn [Py.int_digits_from].
  rewrite Ua, Ea, Ub, Eb, Uc, Ec, Ud, Ed.
  eexists. split; [reflexivity|]. lia.
Qed.

(** ** Discovery in the year-detecting script *)

Lemma forall_omap {A B : Type} (f : A -> option B) (P : B -> Prop) (l : list A) :
  (forall a b, f a = Some b -> P b) -> Forall P (omap f l).
Proof.
  intros H. induction l as [|a l IH]; cbn; [constructor|].
  destruct (f a) as [b|] eqn:E; [constructor; eauto | exact IH].
Qed.

Lemma absolute_starts_http (m : string) :
  Py.startswith (Future.absolute m) "http" = true.
Proof.
  unfold Future.absolute. destruct (Py.startswith m "/"); [reflexivity|].
  destruct (Py.startswith m "http") eqn:E; [exact E | reflexivity].
Qed.

(** X2: every candidate the page scan builds has a year between 0 and 9999,
    an absolute address and a file name without a slash. *)
Theorem future_candidates_well_formed (content : string) :
  Forall (fun f => (0 <= Future.year f <= 9999)%Z
                   /\ Py.startswith (Future.url f) "http" = true
                   /\ Py.contains "/" (Future.filename f) = false)
         (Future.available_files_of content).
Proof.
  unfold Future.available_files_of. apply forall_omap. intros m f.
  unfold Future.file_of_match.
  destruct (Py.search_d4 m) as [g|] eqn:Eg; [|discriminate].
  destruct (int_four_digits g (search_d4_four_digits m g Eg)) as (y & -> & By).
  intros [= <-]. cbn [Future.year Future.url Future.filename].
  split; [exact By|]. split; [apply absolute_starts_http|].
  apply last_segment_no_slash.
Qed.

(** X1: the candidate [find_latest_payment_standards] returns comes from the
    page: it is the first one, among the candidates read off a page that
    [raise_for_status] lets through, whose year is the greatest. *)
Theorem find_latest_first_greatest (w : Sys.World) (f : Future.FileInfo) :
  Future.find_latest_payment_standards w = Some f ->
  exists status content l1 l2,
    Sys.http w Future.payment_standards_page = Sys.Response status content
    /\ Sys.raise_for_status status = false
    /\ Future.available_files_of content = (l1 ++ f :: l2)%list
    /\ Forall (fun g => (Future.year g < Future.year f)%Z) l1
    /\ Forall (fun g => (Future.year g <= Future.year f)%Z) l2.
Proof.
  unfold Future.find_latest_payment_standards.
  destruct (Sys.http w Future.payment_standards_page) as [|status content];
    [discriminate|].
  destruct (Sys.raise_for_status status) eqn:Er; [discriminate|].
  destruct (Future.available_files_of content) as [|x rest] eqn:Ea;
    [discriminate|].
  intros H.
  destruct (future_latest_first_greatest (x :: rest) ltac:(discriminate))
    as (f' & l1 & l2 & Hl & Heq & H1 & H2).
  rewrite H in Hl. injection Hl as <-.
  exists status, content, l1, l2. rewrite Ea. repeat split; try assumption; reflexivity.
Qed.

Lemma find_latest_first_greatest_witness :
  exists status content l1 l2,
    Sys.http (Scenario.serving 200 Scenario.page_2024_2025 ∅ [] [])
      Future.payment_standards_page = Sys.Response status content
    /\ Sys.raise_for_status status = false
    /\ Future.available_files_of content
       = (l1 ++ {| Future.url := "https://www.bostonhousing.org/docs/2025-Payment-Standards.pdf";
                   Future.year := 2025;
                   Future.filename := "2025-Payment-Standards.pdf" |} :: l2)%list
    /\ Forall (fun g => (Future.year g < 2025)%Z) l1
    /\ Forall (fun g => (Future.year g <= 2025)%Z) l2.
Proof.
  apply (find_latest_first_greatest
           (Scenario.serving 200 Scenario.page_2024_2025 ∅ [] [])).
  vm_compute. reflexivity.
Defined.

Lemma only_files_differ_refl (w : Sys.World) : only_files_differ w w.
Proof. repeat split. Qed.

Lemma write_file_only_files (path : string) (data : Sys.FileData)
    (w w' : Sys.World) :
  Sys.write_file path data w = Some w' -> only_files_differ w w'.
Proof.
  unfold Sys.write_file. destruct (Sys.unwritable w path); [discriminate|].
  intros [= <-]. repeat split.
Qed.

Lemma future_download_only_files (w w' : Sys.World) (f : Future.FileInfo)
    (r : option string) :
  Future.download_payment_standards_pdf w f = (w', r) -> only_files_differ w w'.
Proof.
  unfold Future.download_payment_standards_pdf.
  destruct (Sys.http w (Future.url f)) as [|status content];
    [intros [= <- _]; apply only_files_differ_refl|].
  destruct (Sys.raise_for_status status);
    [intros [= <- _]; apply only_files_differ_refl|].
  destruct (Sys.write_file _ _ w) as [w1|] eqn:E; intros [= <- _];
    [exact (write_file_only_files _ _ _ _ E) | apply only_files_differ_refl].
Qed.

Lemma same_environment_trans (w1 w2 w3 : Sys.World) :
  same_environment w1 w2 -> same_environment w2 w3 -> same_environment w1 w3.
Proof.
  unfold same_environment. intros (A1&A2&A3&A4&A5) (B1&B2&B3&B4&B5).
  repeat split; congruence.
Qed.

Lemma database_untouched_refl (w : Sys.World) : database_untouched w w.
Proof. repeat split. Qed.

Lemma database_untouched_trans (w1 w2 w3 : Sys.World) :
  database_untouched w1 w2 -> database_untouched w2 w3 -> database_untouched w1 w3.
Proof.
  intros (S1 & R1 & D1) (S2 & R2 & D2). split; [|split; congruence].
  eapply same_environment_trans; eassumption.
Qed.

Lemma only_files_database_untouched (w w' : Sys.World) :
  only_files_differ w w' -> database_untouched w w'.
Proof.
  intros ((A1&A2&A3&A4&A5&A6&A7&A8) & R & D). repeat split; assumption.
Qed.

(** A reading of the clock changes the clock only. *)
Lemma tick_database_untouched (w : Sys.World) : database_untouched w (Sys.tick w).
Proof. repeat split. Qed.

Lemma future_save_to_csv_only_files (w : Sys.World) (df : Pandas.DataFrame) (y : Z) :
  only_files_differ w (fst (Future.save_to_csv w df y)).
Proof.
  unfold Future.save_to_csv.
  destruct (Sys.write_file _ _ w) as [w'|] eqn:E;
    [exact (write_file_only_files _ _ _ _ E) | apply only_files_differ_refl].
Qed.

Lemma future_save_to_json_untouched (w : Sys.World) (df : Pandas.DataFrame) (y : Z) :
  database_untouched w (fst (Future.save_to_json w df y)).
Proof.
  unfold Future.save_to_json. cbv zeta.
  eapply database_untouched_trans; [apply tick_database_untouched|].
  destruct (Sys.write_file _ _ (Sys.tick w)) as [w'|] eqn:E;
    [exact (only_files_database_untouched _ _ (write_file_only_files _ _ _ _ E))
    | apply database_untouched_refl].
Qed.

(** The year-detecting [save_to_database] leaves the directory, the
    clock and the environment as they are. *)
Lemma future_save_to_database_only_database (w : Sys.World) (df : Pandas.DataFrame) :
  only_database_differs w (fst (Future.save_to_database w df)).
Proof.
  unfold Future.save_to_database.
  destruct (Sys.db_outcome w) as [[| |] rest], (Sys.legacy_sqlalchemy w);
    repeat split.
Qed.

(** What the year-detecting [save_to_database] does to the table, by
    outcome of the database call and line of the library. *)
Lemma future_save_to_database_table (w : Sys.World) (df : Pandas.DataFrame) :
  Sys.rents (fst (Future.save_to_database w df))
  = match fst (Sys.db_outcome w) with
    | Sys.DbFailsEarly => Sys.rents w
    | _ => if Sys.legacy_sqlalchemy w then other_sources (Sys.rents w)
           else Sys.rents w
    end.
Proof.
  unfold Future.save_to_database.
  destruct (Sys.db_outcome w) as [[| |] rest], (Sys.legacy_sqlalchemy w);
    reflexivity.
Qed.

Lemma other_sources_idem (table : list Pandas.Row) :
  other_sources (other_sources table) = other_sources table.
Proof.
  unfold other_sources. induction table as [|r t IH]; [reflexivity|].
  cbn [List.filter]. destruct (negb (matches_delete r)) eqn:E; [|exact IH].
  cbn [List.filter]. now rewrite E, IH.
Qed.

(** ** The year-detecting [save_to_database] *)

(** X5: whatever the database call does, the rows of other sources stay in
    the table, in their order, when the frame written holds
    payment-standards records only. *)
Theorem future_save_keeps_other_sources (w : Sys.World) (df : Pandas.DataFrame) :
  Forall (fun r => matches_delete r = true) (Pandas.records df) ->
  other_sources (Sys.rents (fst (Future.save_to_database w df)))
  = other_sources (Sys.rents w).
Proof.
  intros Hm. rewrite (future_save_to_database_table w df).
  destruct (fst (Sys.db_outcome w)), (Sys.legacy_sqlalchemy w);
    try reflexivity; apply other_sources_idem.
Qed.

Lemma future_save_keeps_other_sources_witness :
  other_sources
    (Sys.rents
       (fst (Future.save_to_database
               (Sys.set_db [Scenario.row_2024;
                            [("zip_code", Pandas.Str "02108"); ("source", Pandas.Str "BHA")]]
                           [Sys.DbFailsOnInsert] Scenario.offline)
               (Scenario.frame_future 2025))))
  = other_sources
      (Sys.rents
         (Sys.set_db [Scenario.row_2024;
                      [("zip_code", Pandas.Str "02108"); ("source", Pandas.Str "BHA")]]
                     [Sys.DbFailsOnInsert] Scenario.offline)).
Proof.
  apply future_save_keeps_other_sources. vm_compute. repeat constructor.
Defined.

(** ** The year-detecting pipeline as a whole *)

(** The steps behind a run that reports success. *)
Lemma future_run_true_inv (w w' : Sys.World) :
  Future.run_full_pipeline w = (w', true) ->
  exists latest df w3,
    Future.find_latest_payment_standards w = Some latest
    /\ database_untouched w w3
    /\ Sys.write_file Future.current_year_file (Sys.Raw (Py.str (Future.year latest)))
         (fst (Future.save_to_database w3 df)) = Some w'.
Proof.
  unfold Future.run_full_pipeline.
  destruct (Future.find_latest_payment_standards w) as [latest|]; [|discriminate].
  destruct (Future.download_payment_standards_pdf w latest) as [w1 [path|]] eqn:Ed;
    [|discriminate].
  pose proof (only_files_database_untouched _ _
                (future_download_only_files _ _ _ _ Ed)) as F1.
  destruct (Future.extract_rent_data_from_pdf w1 path (Future.year latest))
    as [df|] eqn:Ex; [|discriminate].
  cbv zeta.
  pose proof (tick_database_untouched w1) as Ft.
  pose proof (only_files_database_untouched _ _
                (future_save_to_csv_only_files (Sys.tick w1) df (Future.year latest)))
    as F2.
  destruct (Future.save_to_csv (Sys.tick w1) df _) as [w2 ?]. cbn [fst] in F2.
  pose proof (future_save_to_json_untouched w2 df (Future.year latest)) as F3.
  destruct (Future.save_to_json w2 df _) as [w3 ?]. cbn [fst] in F3.
  destruct (Future.save_to_database w3 df) as [w4 ?] eqn:Es.
  destruct (Sys.write_file _ _ w4) as [w5|] eqn:Ew; [|discriminate].
  intros [= <-]. exists latest, df, w3. split; [reflexivity|].
  split; [|rewrite Es; exact Ew].
  eapply database_untouched_trans; [exact F1|].
  eapply database_untouched_trans; [exact Ft|].
  eapply database_untouched_trans; [exact F2 | exact F3].
Qed.

(** A run that reports success leaves the network as it was. *)
Lemma future_run_true_network (w w' : Sys.World) :
  Future.run_full_pipeline w = (w', true) -> Sys.http w' = Sys.http w.
Proof.
  intros H. destruct (future_run_true_inv w w' H) as (latest & df & w3 & _ & F & Hw).
  destruct F as ((H3 & _) & _ & _).
  pose proof (future_save_to_database_only_database w3 df) as ((H4 & _) & _).
  pose proof (write_file_only_files _ _ _ _ Hw) as ((H5 & _) & _ & _).
  congruence.
Qed.




Lemma find_latest_same_network (w w' : Sys.World) :
  Sys.http w' = Sys.http w ->
  Future.find_latest_payment_standards w' = Future.find_latest_payment_standards w.
Proof. intros H. unfold Future.find_latest_payment_standards. now rewrite H. Qed.

Lemma future_run_true_marker (w w' : Sys.World) :
  Future.run_full_pipeline w = (w', true) ->
  exists latest,
    Future.find_latest_payment_standards w = Some latest
    /\ Future.read_current_year w' = inl (Some (Future.year latest)).
Proof.
  intros H. destruct (future_run_true_inv w w' H) as (latest & df & w3 & Hf & _ & Hw).
  exists latest. split; [exact Hf|]. exact (read_after_marker_write _ _ _ Hw).
Qed.

(** X10: once a run has reported success, [check_for_updates] answers
    [False] for as long as the page stays the same: the stored year is
    the year of the latest candidate. *)
Theorem gate_closed_after_run (w w' : Sys.World) :
  Future.run_full_pipeline w = (w', true) ->
  Future.check_for_updates w' = false.
Proof.
  intros H. destruct (future_run_true_marker w w' H) as (latest & Hf & Hm).
  pose proof (future_run_true_network w w' H) as Hh.
  unfold Future.check_for_updates.
  rewrite Hm, (find_latest_same_network w w' Hh), Hf.
  unfold Py.int_gt. apply Z.ltb_irrefl.
Qed.

Lemma gate_closed_after_run_witness :
  Future.check_for_updates
    (fst (Future.run_full_pipeline
            (Scenario.serving 200 Scenario.page_2024_2025
               (Scenario.marker_file "2024") [] []))) = false.
Proof.
  apply (gate_closed_after_run
           (Scenario.serving 200 Scenario.page_2024_2025
              (Scenario.marker_file "2024") [] [])).
  rewrite (surjective_pairing (Future.run_full_pipeline _)) at 1.
  f_equal; vm_compute; reflexivity.
Defined.

(** A download that returns nothing leaves the world as it was. *)
Lemma future_download_none (w w' : Sys.World) (f : Future.FileInfo) :
  Future.download_payment_standards_pdf w f = (w', None) -> w' = w.
Proof.
  unfold Future.download_payment_standards_pdf.
  destruct (Sys.http w (Future.url f)) as [|status content]; [congruence|].
  destruct (Sys.raise_for_status status); [congruence|].
  destruct (Sys.write_file _ _ w); [discriminate | congruence].
Qed.

(** X6: when the selected document cannot be stored locally (the request
    raises, it is answered with a 4xx or 5xx status, or the file cannot
    be written) the run reports failure and the world, marker and table
    included, is as before. *)
Theorem future_run_aborts_without_download (w : Sys.World) (latest : Future.FileInfo) :
  Future.find_latest_payment_standards w = Some latest ->
  snd (Future.download_payment_standards_pdf w latest) = None ->
  Future.run_full_pipeline w = (w, false).
Proof.
  intros Hf Hd. unfold Future.run_full_pipeline. rewrite Hf.
  destruct (Future.download_payment_standards_pdf w latest) as [w1 r] eqn:E.
  cbn [snd] in Hd. subst r. now rewrite (future_download_none _ _ _ E).
Qed.

Lemma future_run_aborts_without_download_witness :
  Future.run_full_pipeline
    {| Sys.http := fun u =>
         if String.eqb u Future.payment_standards_page
         then Sys.Response 200 Scenario.page_2025 else Sys.Response 503 EmptyString;
       Sys.read_json := fun _ => None;
       Sys.now := "2025-07-01T09:00:00";
       Sys.now_stamp := "20250701_090000";
       Sys.later := Scenario.clock;
       Sys.transform_raises := false;
       Sys.fs := Scenario.marker_file "2024";
       Sys.unwritable := fun _ => false;
       Sys.rents := [Scenario.row_2024];
       Sys.db_next := [];
       Sys.legacy_sqlalchemy := false |}
  = ({| Sys.http := fun u =>
         if String.eqb u Future.payment_standards_page
         then Sys.Response 200 Scenario.page_2025 else Sys.Response 503 EmptyString;
       Sys.read_json := fun _ => None;
       Sys.now := "2025-07-01T09:00:00";
       Sys.now_stamp := "20250701_090000";
       Sys.later := Scenario.clock;
       Sys.transform_raises := false;
       Sys.fs := Scenario.marker_file "2024";
       Sys.unwritable := fun _ => false;
       Sys.rents := [Scenario.row_2024];
       Sys.db_next := [];
       Sys.legacy_sqlalchemy := false |}, false).
Proof.
  apply (future_run_aborts_without_download _
           {| Future.url := "https://www.bostonhousing.org/docs/2025-Payment-Standards.pdf";
              Future.year := 2025;
              Future.filename := "2025-Payment-Standards.pdf" |}).
  - vm_compute. reflexivity.
  - vm_compute. reflexivity.
Defined.

(** Discovery in the year-detecting script returns nothing only for the
    three reasons it has: the request raises, the answer is a 4xx or 5xx
    one, or the page yields no candidate. *)
Lemma find_latest_none_iff (w : Sys.World) :
  Future.find_latest_payment_standards w = None
  <-> discovery_fails Future.available_files_of Future.payment_standards_page w.
Proof.
  unfold Future.find_latest_payment_standards, discovery_fails.
  destruct (Sys.http w Future.payment_standards_page) as [|status content];
    [tauto|].
  destruct (Sys.raise_for_status status); [tauto|].
  destruct (Future.available_files_of content) as [|x rest].
  - tauto.
  - cbn. split; [discriminate | intros [?|?]; discriminate].
Qed.

(** X11: [check_for_updates] answers [False] whenever something is in the
    way: a marker file whose text is not an integer, or a discovery that
    has nothing to offer (the request raises, the answer is a 4xx or 5xx
    one, or the page yields no candidate). *)
Theorem check_for_updates_false_on_trouble (w : Sys.World) :
  (exists text, Future.marker w = Some (Sys.Raw text) /\ Py.int text = None)
  \/ discovery_fails Future.available_files_of Future.payment_standards_page w ->
  Future.check_for_updates w = false.
Proof.
  unfold Future.check_for_updates, Future.read_current_year, Future.marker.
  intros [(text & -> & ->) | H]; [reflexivity|].
  apply find_latest_none_iff in H. rewrite H.
  destruct (Sys.fs w !! Future.current_year_file) as [[text| |]|]; try reflexivity.
  now destruct (Py.int text).
Qed.

Lemma check_for_updates_false_on_trouble_witness :
  Future.check_for_updates
    (Scenario.serving 200 Scenario.page_2024_2025
       (Scenario.marker_file "twenty-twenty") [] []) = false.
Proof.
  apply check_for_updates_false_on_trouble. left.
  exists "twenty-twenty". split; vm_compute; reflexivity.
Defined.

(** ** Discovery and selection in the page-scan script *)

(** Every group [findall] returns passes the test of the pattern. *)
Lemma findall_href_from_ok (ignorecase : bool) (ok : string -> bool)
    (skip : nat) (s : string) :
  Forall (fun seg => ok seg = true) (Py.findall_href_from ignorecase ok skip s).
Proof.
  revert skip. induction s as [|c s IH]; intros skip; cbn [Py.findall_href_from];
    [constructor|].
  destruct skip as [|k]; [|apply IH].
  destruct (Py.href_at ignorecase ok (String c s)) as [seg|] eqn:E; [|apply IH].
  constructor; [|apply IH]. unfold Py.href_at in E.
  destruct (String.prefix _ _); [|discriminate].
  destruct (Py.until_quote _) as [seg'|]; [|discriminate].
  destruct (ok seg') eqn:Eo; [|discriminate]. now injection E as <-.
Qed.

Lemma contains_cons (sub : string) (c : ascii) (s : string) :
  Py.contains sub s = true -> Py.contains sub (String c s) = true.
Proof. intros H. cbn [Py.contains]. rewrite H. apply orb_true_r. Qed.

Lemma contains_app (sub p s : string) :
  Py.contains sub s = true -> Py.contains sub (p +:+ s) = true.
Proof.
  intros H. induction p as [|c p IH]; [exact H|].
  change (String c p +:+ s) with (String c (p +:+ s)). now apply contains_cons.
Qed.

Lemma rent_absolute_starts_http (m : string) :
  Py.startswith (RentData.absolute m) "http" = true.
Proof.
  unfold RentData.absolute. destruct (Py.startswith m "/"); [reflexivity|].
  destruct (Py.startswith m "http") eqn:E; [exact E | reflexivity].
Qed.

Lemma rent_absolute_contains (sub m : string) :
  Py.contains sub m = true -> Py.contains sub (RentData.absolute m) = true.
Proof.
  intros H. unfold RentData.absolute. destruct (Py.startswith m "/").
  - now apply contains_app.
  - destruct (Py.startswith m "http"); [exact H|].
    apply contains_app. now apply (contains_app sub "/" m).
Qed.

(** X12: whatever the page answers, every link [get_payment_standards_files]
    returns is of type [Payment Standards], has an absolute address that
    names a [.pdf], a file name without a slash, and a year that is four
    digits or the word [Unknown]. *)
Theorem rent_data_links_well_formed (w : Sys.World) :
  Forall (fun l => RentData.type l = "Payment Standards"
                   /\ Py.startswith (RentData.url l) "http" = true
                   /\ Py.contains ".pdf" (RentData.url l) = true
                   /\ Py.contains "/" (RentData.filename l) = false
                   /\ (RentData.year l = "Unknown"
                       \/ four_digits (RentData.year l) = true))
         (RentData.get_payment_standards_files w).
Proof.
  unfold RentData.get_payment_standards_files.
  destruct (Sys.http w RentData.payment_standards_url) as [|status content];
    [constructor|].
  destruct (Sys.raise_for_status status); [constructor|].
  unfold RentData.pdf_links_of. apply List.Forall_forall. intros l Hl.
  apply List.in_map_iff in Hl as (m & <- & Hm).
  apply filter_In in Hm as [Hm _].
  pose proof (findall_href_from_ok false RentData.pdf_pattern_ok 0 content) as F.
  rewrite List.Forall_forall in F. specialize (F m Hm).
  unfold RentData.link_of_match.
  cbn [RentData.type RentData.url RentData.filename RentData.year].
  split; [reflexivity|]. split; [apply rent_absolute_starts_http|].
  split; [now apply rent_absolute_contains|].
  split; [apply last_segment_no_slash|].
  destruct (Py.search_d4 (Py.last_segment m)) as [g|] eqn:E; [|now left].
  right. exact (search_d4_four_digits _ _ E).
Qed.

(** *** Text order and number order on four digits *)

Lemma digit_code (c : ascii) :
  Py.is_digit c = true ->
  exists n, Ascii.is_nat c = Some n /\ n <= 9
            /\ N_of_ascii c = (48 + N.of_nat n)%N
            /\ Ascii.eqb c "_" = false.
Proof.
  destruct c as [[] [] [] [] [] [] [] []]; try discriminate; intros _;
    eexists; (split; [reflexivity|]); (split; [lia|]); split; reflexivity.
Qed.

(** On texts of four digits, [>] on strings is [>] on the numbers they
    spell. *)
Lemma str_gt_four_digits (a b : string) :
  four_digits a = true -> four_digits b = true ->
  Py.str_gt a b
  = Py.int_gt (default 0%Z (Py.int_digits a)) (default 0%Z (Py.int_digits b)).
Proof.
  destruct a as [|a1 [|a2 [|a3 [|a4 [|? ?]]]]]; try discriminate.
  destruct b as [|b1 [|b2 [|b3 [|b4 [|? ?]]]]]; try discriminate.
  cbn [four_digits]. intros Ha Hb.
  apply andb_true_iff in Ha as [Ha Ha4]. apply andb_true_iff in Ha as [Ha Ha3].
  apply andb_true_iff in Ha as [Ha1 Ha2].
  apply andb_true_iff in Hb as [Hb Hb4]. apply andb_true_iff in Hb as [Hb Hb3].
  apply andb_true_iff in Hb as [Hb1 Hb2].
  destruct (digit_code a1 Ha1) as (x1 & E1 & L1 & C1 & U1).
  destruct (digit_code a2 Ha2) as (x2 & E2 & L2 & C2 & U2).
  destruct (digit_code a3 Ha3) as (x3 & E3 & L3 & C3 & U3).
  destruct (digit_code a4 Ha4) as (x4 & E4 & L4 & C4 & U4).
  destruct (digit_code b1 Hb1) as (y1 & F1 & M1 & D1 & V1).
  destruct (digit_code b2 Hb2) as (y2 & F2 & M2 & D2 & V2).
  destruct (digit_code b3 Hb3) as (y3 & F3 & M3 & D3 & V3).
  destruct (digit_code b4 Hb4) as (y4 & F4 & M4 & D4 & V4).
  unfold Py.int_digits. cbn [Py.int_digits_from].
  rewrite U1, E1, U2, E2, U3, E3, U4, E4, V1, F1, V2, F2, V3, F3, V4, F4.
  cbn [default]. unfold Py.str_gt, Py.int_gt, String.ltb.
  cbn [String.compare]. unfold Ascii.compare.
  rewrite C1, C2, C3, C4, D1, D2, D3, D4. cbv [id].
  destruct (N.compare_spec (48 + N.of_nat y1) (48 + N.of_nat x1));
    [| symmetry; apply Z.ltb_lt; lia | symmetry; apply Z.ltb_ge; lia].
  destruct (N.compare_spec (48 + N.of_nat y2) (48 + N.of_nat x2));
    [| symmetry; apply Z.ltb_lt; lia | symmetry; apply Z.ltb_ge; lia].
  destruct (N.compare_spec (48 + N.of_nat y3) (48 + N.of_nat x3));
    [| symmetry; apply Z.ltb_lt; lia | symmetry; apply Z.ltb_ge; lia].
  destruct (N.compare_spec (48 + N.of_nat y4) (48 + N.of_nat x4));
    [symmetry; apply Z.ltb_ge; lia
    | symmetry; apply Z.ltb_lt; lia | symmetry; apply Z.ltb_ge; lia].
Qed.

(** Two ways of comparing that agree on the items of a list select the
    same item. *)
Lemma max_from_agree {A K1 K2 : Type} (gt1 : K1 -> K1 -> bool)
    (gt2 : K2 -> K2 -> bool) (k1 : A -> K1) (k2 : A -> K2) (P : A -> Prop)
    (best : A) (rest : list A) :
  (forall x y, P x -> P y -> gt1 (k1 x) (k1 y) = gt2 (k2 x) (k2 y)) ->
  Forall P (best :: rest) ->
  Py.max_from gt1 k1 best rest = Py.max_from gt2 k2 best rest.
Proof.
  intros Hag. revert best. induction rest as [|x rest IH]; intros best Hall;
    [reflexivity|].
  inversion Hall as [|? ? Hb Hr]; subst. inversion Hr as [|? ? Hx Hrest]; subst.
  cbn [Py.max_from]. rewrite (Hag x best Hx Hb).
  destruct (gt2 (k2 x) (k2 best)); apply IH; constructor; assumption.
Qed.

(** X13: when every link on the page is dated, the page-scan selection picks
    the first link among those of the numerically greatest year. *)
Theorem rent_data_latest_when_dated (pdf_files : list RentData.PdfLink)
    (f : RentData.PdfLink) :
  Forall (fun l => four_digits (RentData.year l) = true) pdf_files ->
  RentData.latest_of pdf_files = Some f ->
  exists l1 l2,
    pdf_files = (l1 ++ f :: l2)%list
    /\ Forall (fun g => (year_number g < year_number f)%Z) l1
    /\ Forall (fun g => (year_number g <= year_number f)%Z) l2.
Proof.
  intros Hall. destruct pdf_files as [|x rest]; [discriminate|].
  unfold RentData.latest_of. cbn [Py.max]. intros [= <-].
  rewrite (max_from_agree Py.str_gt Py.int_gt RentData.year year_number
             (fun l => four_digits (RentData.year l) = true) x rest).
  - apply max_from_first_greatest.
  - intros a b Ha Hb. unfold year_number. now apply str_gt_four_digits.
  - exact Hall.
Qed.

Lemma rent_data_latest_when_dated_witness :
  exists l1 l2,
    RentData.pdf_links_of Scenario.page_2024_2025
    = (l1 ++ {| RentData.url := "https://www.bostonhousing.org/docs/2025-Payment-Standards.pdf";
                RentData.filename := "2025-Payment-Standards.pdf";
                RentData.year := "2025";
                RentData.bedrooms := Some "All";
                RentData.type := "Payment Standards" |} :: l2)%list
    /\ Forall (fun g => (year_number g < 2025)%Z) l1
    /\ Forall (fun g => (year_number g <= 2025)%Z) l2.
Proof.
  apply (rent_data_latest_when_dated (RentData.pdf_links_of Scenario.page_2024_2025)).
  - vm_compute. repeat constructor.
  - vm_compute. reflexivity.
Defined.

(** A text of four digits is below the word [Unknown] in the order of
    strings. *)
Lemma four_digits_below_unknown (a : string) :
  four_digits a = true ->
  String.eqb a "Unknown" = false
  /\ Py.str_gt "Unknown" a = true /\ Py.str_gt a "Unknown" = false.
Proof.
  destruct a as [|a1 [|a2 [|a3 [|a4 [|? ?]]]]]; try discriminate.
  cbn [four_digits]. intros H.
  apply andb_true_iff in H as [H _]. apply andb_true_iff in H as [H _].
  apply andb_true_iff in H as [H1 _].
  destruct a1 as [[] [] [] [] [] [] [] []]; try discriminate H1;
    repeat split; reflexivity.
Qed.

(** On year texts that are four digits or the word [Unknown], [>] on
    strings is [>] on the ranks. *)
Lemma str_gt_year_rank (a b : RentData.PdfLink) :
  RentData.year a = "Unknown" \/ four_digits (RentData.year a) = true ->
  RentData.year b = "Unknown" \/ four_digits (RentData.year b) = true ->
  Py.str_gt (RentData.year a) (RentData.year b)
  = Py.int_gt (year_rank a) (year_rank b).
Proof.
  unfold year_rank, year_number. intros [Ea|Da] [Eb|Db].
  - rewrite Ea, Eb. reflexivity.
  - rewrite Ea. destruct (four_digits_below_unknown _ Db) as (N & G & _).
    rewrite N, G. destruct (int_four_digits _ Db) as (y & -> & By).
    cbn [default String.eqb Ascii.eqb Bool.eqb andb]. unfold Py.int_gt.
    cbv [id]. symmetry. apply Z.ltb_lt. lia.
  - rewrite Eb. destruct (four_digits_below_unknown _ Da) as (N & _ & G).
    rewrite N, G. destruct (int_four_digits _ Da) as (y & -> & By).
    cbn [default String.eqb Ascii.eqb Bool.eqb andb]. unfold Py.int_gt.
    cbv [id]. symmetry. apply Z.ltb_ge. lia.
  - destruct (four_digits_below_unknown _ Da) as (Na & _).
    destruct (four_digits_below_unknown _ Db) as (Nb & _).
    rewrite Na, Nb. now apply str_gt_four_digits.
Qed.

Lemma year_rank_bound (l : RentData.PdfLink) :
  RentData.year l = "Unknown" \/ four_digits (RentData.year l) = true ->
  (year_rank l <= 10000)%Z
  /\ (year_rank l = 10000%Z <-> RentData.year l = "Unknown").
Proof.
  unfold year_rank, year_number. intros [E|D].
  - rewrite E. cbn. split; [lia|]. split; reflexivity.
  - destruct (four_digits_below_unknown _ D) as (N & _). rewrite N.
    destruct (int_four_digits _ D) as (y & -> & By). cbn [default]. cbv [id].
    split; [lia|]. split; [lia|].
    intros E. rewrite E in N. discriminate N.
Qed.

(** X14: when the years of the links are the word [Unknown] or four of
    the digits [0] to [9], and at least one link is undated, the
    page-scan selection returns the first undated link, whatever dated
    links are listed with it. *)
Theorem rent_data_first_undated_wins (pdf_files : list RentData.PdfLink) :
  Forall (fun l => RentData.year l = "Unknown"
                   \/ four_digits (RentData.year l) = true) pdf_files ->
  Exists (fun l => RentData.year l = "Unknown") pdf_files ->
  exists f l1 l2,
    RentData.latest_of pdf_files = Some f
    /\ RentData.year f = "Unknown"
    /\ pdf_files = (l1 ++ f :: l2)%list
    /\ Forall (fun g => four_digits (RentData.year g) = true) l1.
Proof.
  intros Hall Hex. destruct pdf_files as [|x rest]; [inversion Hex|].
  unfold RentData.latest_of. cbn [Py.max].
  rewrite (max_from_agree Py.str_gt Py.int_gt RentData.year year_rank
             (fun l => RentData.year l = "Unknown"
                       \/ four_digits (RentData.year l) = true) x rest
             str_gt_year_rank Hall).
  destruct (max_from_first_greatest year_rank x rest) as (l1 & l2 & Heq & H1 & H2).
  remember (Py.max_from Py.int_gt year_rank x rest) as f eqn:Hf. clear Hf.
  rewrite Heq in Hall, Hex.
  apply Forall_app in Hall as [A1 A2]. apply List.Forall_cons_iff in A2 as [Af A2].
  assert (Rf : year_rank f = 10000%Z).
  { apply List.Exists_exists in Hex as (u & Hu & Eu).
    assert (Ru : year_rank u = 10000%Z).
    { unfold year_rank. rewrite Eu. reflexivity. }
    pose proof (proj1 (year_rank_bound f Af)) as Bf.
    apply in_app_iff in Hu as [Hu | [<- | Hu]].
    - rewrite List.Forall_forall in H1. specialize (H1 u Hu). lia.
    - exact Ru.
    - rewrite List.Forall_forall in H2. specialize (H2 u Hu). lia. }
  exists f, l1, l2. split; [reflexivity|].
  split; [now apply (year_rank_bound f Af)|]. split; [exact Heq|].
  apply List.Forall_forall. intros g Hg.
  rewrite List.Forall_forall in A1, H1.
  destruct (A1 g Hg) as [E|D]; [|exact D].
  specialize (H1 g Hg). apply (year_rank_bound g (or_introl E)) in E. lia.
Qed.

Lemma rent_data_first_undated_wins_witness :
  exists f l1 l2,
    RentData.latest_of (RentData.pdf_links_of Scenario.page_undated) = Some f
    /\ RentData.year f = "Unknown"
    /\ RentData.pdf_links_of Scenario.page_undated = (l1 ++ f :: l2)%list
    /\ Forall (fun g => four_digits (RentData.year g) = true) l1.
Proof.
  apply (rent_data_first_undated_wins (RentData.pdf_links_of Scenario.page_undated)).
  - vm_compute. constructor; [right; reflexivity|].
    constructor; [left; reflexivity | constructor].
  - vm_compute. apply Exists_cons_tl, Exists_cons_hd. reflexivity.
Defined.

(** ** The pipelines that only append *)

(** The appending [save_to_database]: the frame's records go after the
    rows the table has when the call goes through, and the table stays
    as it is otherwise; the directory and the surroundings are not
    touched. *)
Lemma save_to_database_append_table (w : Sys.World) (df : Pandas.DataFrame) :
  Sys.rents (fst (Sys.save_to_database_append w df))
  = (Sys.rents w
       ++ match fst (Sys.db_outcome w) with
          | Sys.DbOk => Pandas.records df
          | _ => []
          end)%list
  /\ snd (Sys.save_to_database_append w df)
     = match fst (Sys.db_outcome w) with Sys.DbOk => true | _ => false end
  /\ only_database_differs w (fst (Sys.save_to_database_append w df)).
Proof.
  unfold Sys.save_to_database_append.
  destruct (Sys.db_outcome w) as [[| |] rest]; cbn [fst snd Sys.rents Sys.set_db];
    rewrite ?app_nil_r; repeat split.
Qed.






(** ** The fixed-URL pipeline *)

Lemma fixed_download_only_files (w w' : Sys.World) (r : option string) :
  Fixed2025.download_payment_standards_pdf w = (w', r) -> only_files_differ w w'.
Proof.
  unfold Fixed2025.download_payment_standards_pdf.
  destruct (Sys.http w Fixed2025.pdf_url) as [|status content];
    [intros [= <- _]; apply only_files_differ_refl|].
  destruct (Sys.raise_for_status status);
    [intros [= <- _]; apply only_files_differ_refl|].
  destruct (Sys.write_file _ _ w) as [w1|] eqn:E; intros [= <- _];
    [exact (write_file_only_files _ _ _ _ E) | apply only_files_differ_refl].
Qed.

Lemma fixed_download_none (w w' : Sys.World) :
  Fixed2025.download_payment_standards_pdf w = (w', None) -> w' = w.
Proof.
  unfold Fixed2025.download_payment_standards_pdf.
  destruct (Sys.http w Fixed2025.pdf_url) as [|status content]; [congruence|].
  destruct (Sys.raise_for_status status); [congruence|].
  destruct (Sys.write_file _ _ w); [discriminate | congruence].
Qed.

Lemma fixed_save_to_csv_only_files (w : Sys.World) (df : Pandas.DataFrame)
    (filename : option string) :
  only_files_differ w (fst (Fixed2025.save_to_csv w df filename)).
Proof.
  unfold Fixed2025.save_to_csv.
  destruct (Sys.write_file _ _ w) as [w'|] eqn:E;
    [exact (write_file_only_files _ _ _ _ E) | apply only_files_differ_refl].
Qed.

Lemma fixed_save_to_json_untouched (w : Sys.World) (df : Pandas.DataFrame)
    (filename : option string) :
  database_untouched w (fst (Fixed2025.save_to_json w df filename)).
Proof.
  unfold Fixed2025.save_to_json. cbv zeta.
  eapply database_untouched_trans; [apply tick_database_untouched|].
  destruct (Sys.write_file _ _ (Sys.tick w)) as [w'|] eqn:E;
    [exact (only_files_database_untouched _ _ (write_file_only_files _ _ _ _ E))
    | apply database_untouched_refl].
Qed.

Lemma fixed_extract_same_clock (w w' : Sys.World) (p p' : string) :
  Sys.now w' = Sys.now w ->
  Fixed2025.extract_rent_data_from_pdf w' p' = Fixed2025.extract_rent_data_from_pdf w p.
Proof. intros H. unfold Fixed2025.extract_rent_data_from_pdf. now rewrite H. Qed.

(** X16: the fixed-URL pipeline reports success exactly when the
    document could be stored locally; without it the world is left as it
    was.  The table after the run is the table before it, followed by
    the extracted records, stamped with the first reading of the clock,
    when the document was stored and the database call went through, and
    by nothing otherwise.  The exit code of the script is 0 exactly
    when, besides, the constructor went through. *)
Theorem fixed_run_outcome (w : Sys.World) :
  ((snd (Fixed2025.run_full_pipeline w) = true
    <-> is_Some (snd (Fixed2025.download_payment_standards_pdf w)))
   /\ (snd (Fixed2025.download_payment_standards_pdf w) = None ->
         Fixed2025.run_full_pipeline w = (w, false))
   /\ exists df,
        Fixed2025.extract_rent_data_from_pdf w EmptyString = Some df
        /\ Sys.rents (fst (Fixed2025.run_full_pipeline w))
           = (Sys.rents w
                ++ match snd (Fixed2025.download_payment_standards_pdf w),
                         fst (Sys.db_outcome w) with
                   | Some _, Sys.DbOk => Pandas.records df
                   | _, _ => []
                   end)%list)
  /\ (forall makedirs_raises : bool,
        snd (Fixed2025.main makedirs_raises w) = 0%Z
        <-> makedirs_raises = false
            /\ is_Some (snd (Fixed2025.download_payment_standards_pdf w))).
Proof.
  assert (Hrun :
    (snd (Fixed2025.run_full_pipeline w) = true
     <-> is_Some (snd (Fixed2025.download_payment_standards_pdf w)))
    /\ (snd (Fixed2025.download_payment_standards_pdf w) = None ->
          Fixed2025.run_full_pipeline w = (w, false))
    /\ exists df,
         Fixed2025.extract_rent_data_from_pdf w EmptyString = Some df
         /\ Sys.rents (fst (Fixed2025.run_full_pipeline w))
            = (Sys.rents w
                 ++ match snd (Fixed2025.download_payment_standards_pdf w),
                          fst (Sys.db_outcome w) with
                    | Some _, Sys.DbOk => Pandas.records df
                    | _, _ => []
                    end)%list).
  {
    unfold Fixed2025.run_full_pipeline.
    destruct (Fixed2025.download_payment_standards_pdf w) as [w1 [path|]] eqn:Ed.
    2:{ rewrite (fixed_download_none _ _ Ed). cbn [snd fst]. split; [|split].
        - split; [discriminate | intros [? ?]; discriminate].
        - reflexivity.
        - eexists. split; [reflexivity|]. now rewrite app_nil_r. }
    pose proof (fixed_download_only_files _ _ _ Ed) as ((_&_&Hn1&_) & Hr1 & Hd1).
    destruct (Fixed2025.extract_rent_data_from_pdf w1 path) as [df|] eqn:Ex;
      [|discriminate Ex].
    cbv zeta.
    pose proof (fixed_save_to_csv_only_files (Sys.tick w1) df
                  (Some "bha_2025_payment_standards.csv")) as (_ & Hr2 & Hd2).
    destruct (Fixed2025.save_to_csv (Sys.tick w1) df _) as [w2 ?]. cbn [fst] in *.
    pose proof (fixed_save_to_json_untouched w2 df (Some "bha_2025_payment_standards.json"))
      as (_ & Hr3 & Hd3).
    destruct (Fixed2025.save_to_json w2 df _) as [w3 ?]. cbn [fst] in *.
    pose proof (save_to_database_append_table w3 df) as (T & _ & _).
    unfold Fixed2025.save_to_database.
    destruct (Sys.save_to_database_append w3 df) as [w4 ?]. cbn [fst snd] in *.
    cbn [Sys.rents Sys.db_next Sys.tick] in Hr2, Hd2.
    split; [|split].
    - split; [eauto | reflexivity].
    - discriminate.
    - exists df. split.
      + rewrite <- Ex. apply fixed_extract_same_clock. now symmetry.
      + rewrite T, Hr3, Hr2, Hr1. f_equal.
        assert (O : fst (Sys.db_outcome w3) = fst (Sys.db_outcome w)).
        { unfold Sys.db_outcome. now rewrite Hd3, Hd2, Hd1. }
        now rewrite O. }
  split; [exact Hrun|].
  intros makedirs_raises. destruct Hrun as [H _].
  unfold Fixed2025.main. destruct makedirs_raises.
  - cbn [snd]. split; [discriminate | intros [? _]; discriminate].
  - destruct (Fixed2025.run_full_pipeline w) as [w' b]. cbn [snd] in H.
    destruct b; cbn [snd].
    + split; [intros _; split; [reflexivity | now apply H] | reflexivity].
    + split; [discriminate|]. intros [_ Hs]. apply H in Hs. discriminate.
Qed.

(** ** The catalog script *)

(** X17: the address [get_latest_csv_url] returns is that of a resource of
    the dataset whose format reads CSV in any letter case, and no CSV
    resource of the dataset has a later creation stamp. *)
Theorem ckan_latest_csv_url_greatest (w : Sys.World) (u : string) :
  Ckan.get_latest_csv_url w = Some u ->
  exists dataset r,
    Ckan.get_dataset_info w = Some dataset
    /\ In r (default [] (Sys.resources dataset))
    /\ Ckan.is_csv r = true
    /\ Sys.res_url r = Some u
    /\ Forall (fun g => Ckan.is_csv g = true ->
                        String.leb (Ckan.created_key g) (Ckan.created_key r) = true)
              (default [] (Sys.resources dataset)).
Proof.
  unfold Ckan.get_latest_csv_url.
  destruct (Ckan.get_dataset_info w) as [dataset|]; [|discriminate].
  destruct (List.filter Ckan.is_csv (default [] (Sys.resources dataset)))
    as [|x rest] eqn:Ef; [discriminate|].
  unfold Ckan.latest_resource_of. cbn [Py.max]. intros Hu.
  pose proof (max_from_member Py.str_gt Ckan.created_key x rest) as M.
  pose proof (max_from_greatest Py.str_gt String.leb Ckan.created_key str_gt_leb
                string_leb_refl string_leb_trans string_leb_total x rest) as G.
  rewrite <- Ef in M, G. apply filter_In in M as [Min Mcsv].
  exists dataset, (Py.max_from Py.str_gt Ckan.created_key x rest).
  split; [reflexivity|]. split; [exact Min|]. split; [exact Mcsv|].
  split; [exact Hu|].
  apply List.Forall_forall. intros g Hg Hcsv.
  rewrite List.Forall_forall in G. apply G. apply filter_In. now split.
Qed.

Lemma ckan_latest_csv_url_greatest_witness :
  exists dataset r,
    Ckan.get_dataset_info (catalog reply_two_csv []) = Some dataset
    /\ In r (default [] (Sys.resources dataset))
    /\ Ckan.is_csv r = true
    /\ Sys.res_url r = Some "https://data.boston.gov/c.csv"
    /\ Forall (fun g => Ckan.is_csv g = true ->
                        String.leb (Ckan.created_key g) (Ckan.created_key r) = true)
              (default [] (Sys.resources dataset)).
Proof.
  apply (ckan_latest_csv_url_greatest (catalog reply_two_csv [])).
  vm_compute. reflexivity.
Defined.

(** The catalog cannot be read: [get_dataset_info] returns its empty
    value. *)
Lemma catalog_unavailable_none (w : Sys.World) :
  catalog_unavailable w -> Ckan.get_dataset_info w = None.
Proof.
  unfold catalog_unavailable, Ckan.get_dataset_info.
  destruct (Sys.http w Ckan.package_show_url) as [|status text]; [reflexivity|].
  intros [-> | H]; [reflexivity|].
  destruct (Sys.raise_for_status status); [reflexivity|].
  destruct (Sys.read_json w text) as [data|]; [|reflexivity].
  destruct H as [-> | H]; [reflexivity|].
  now destruct (Sys.success data).
Qed.

(** X18: the catalog pipeline reports failure and leaves the world as it
    was when the catalog cannot be read (the request raises, the status
    is 4xx or 5xx, the body is not JSON, [success] is false or [result]
    is missing), when the dataset lists no CSV resource, when the
    selected resource has no usable address, and when the table cannot
    be downloaded. *)
Theorem ckan_run_aborts (w : Sys.World) :
  catalog_unavailable w
  \/ (exists dataset,
        Ckan.get_dataset_info w = Some dataset
        /\ List.filter Ckan.is_csv (default [] (Sys.resources dataset)) = [])
  \/ Py.truthy (Ckan.get_latest_csv_url w) = None
  \/ (exists u, Py.truthy (Ckan.get_latest_csv_url w) = Some u
                /\ Ckan.download_csv_data w u = None) ->
  Ckan.run_full_pipeline w = (w, false).
Proof.
  intros [H | [(dataset & Hd & Hn) | H]].
  - apply catalog_unavailable_none in H.
    unfold Ckan.run_full_pipeline, Ckan.get_latest_csv_url. now rewrite H.
  - unfold Ckan.run_full_pipeline, Ckan.get_latest_csv_url. now rewrite Hd, Hn.
  - unfold Ckan.run_full_pipeline. destruct H as [-> | (u & -> & ->)]; reflexivity.
Qed.

Lemma ckan_run_aborts_witness :
  Ckan.run_full_pipeline Scenario.offline = (Scenario.offline, false).
Proof. apply ckan_run_aborts. left. exact I. Defined.

(** X19: the catalog pipeline never gets at the table.
    [download_csv_data] calls [pd.StringIO], which [pandas] does not
    have, inside its [try]: it returns [None] for every address and
    every answer.  So in every world the run reports failure and leaves
    the world as it was, [transform_data] and the two writes are not
    reached, and the script ends with code 1. *)
Theorem ckan_run_never_succeeds (w : Sys.World) :
  (forall u, Ckan.download_csv_data w u = None)
  /\ Ckan.run_full_pipeline w = (w, false)
  /\ (forall makedirs_raises : bool, Ckan.main makedirs_raises w = (w, 1%Z)).
Proof.
  assert (D : forall u, Ckan.download_csv_data w u = None).
  { intros u. unfold Ckan.download_csv_data.
    destruct (Sys.http w u) as [|status text]; [reflexivity|].
    now destruct (Sys.raise_for_status status). }
  assert (R : Ckan.run_full_pipeline w = (w, false)).
  { unfold Ckan.run_full_pipeline.
    destruct (Py.truthy (Ckan.get_latest_csv_url w)) as [u|]; [|reflexivity].
    now rewrite D. }
  split; [exact D|]. split; [exact R|].
  intros makedirs_raises. unfold Ckan.main. rewrite R. now destruct makedirs_raises.
Qed.

(** ** Stamping a table twice *)

Lemma column_holds_set (c : string) (v : Pandas.Cell) (df : Pandas.DataFrame) :
  column_holds c v (Pandas.set_scalar c v df).
Proof.
  unfold column_holds, Pandas.set_scalar, Pandas.column_names.
  cbn [Pandas.columns Pandas.nrows].
  destruct (existsb (String.eqb c) (map fst (Pandas.columns df))) eqn:E.
  - split.
    + rewrite List.map_map.
      erewrite List.map_ext; [exact E|]. intros [k vs]. cbn [fst].
      destruct (String.eqb_spec k c) as [->|]; reflexivity.
    + apply List.Forall_forall. intros kv Hin. apply List.in_map_iff in Hin as ([k vs] & <- & _).
      cbn [fst]. destruct (String.eqb_spec k c) as [->|Hne]; cbn [fst snd];
        [reflexivity | congruence].
  - split.
    + rewrite List.map_app, List.existsb_app. cbn. rewrite String.eqb_refl.
      apply orb_true_r.
    + apply Forall_app. split; [|repeat constructor].
      apply List.Forall_forall. intros [k vs] Hin Hk. cbn [fst] in Hk. subst k.
      exfalso. assert (T : existsb (String.eqb c) (map fst (Pandas.columns df)) = true).
      { apply List.existsb_exists. exists c. split; [|apply String.eqb_refl].
        apply List.in_map_iff. exists (c, vs). now split. }
      congruence.
Qed.

Lemma column_holds_set_other (c c' : string) (v v' : Pandas.Cell)
    (df : Pandas.DataFrame) :
  c' <> c -> column_holds c v df -> column_holds c v (Pandas.set_scalar c' v' df).
Proof.
  intros Hne [He Hf]. unfold column_holds, Pandas.set_scalar, Pandas.column_names in *.
  cbn [Pandas.columns Pandas.nrows].
  destruct (existsb (String.eqb c') (map fst (Pandas.columns df))).
  - split.
    + rewrite List.map_map.
      erewrite List.map_ext; [exact He|]. intros [k vs]. cbn [fst].
      destruct (String.eqb_spec k c') as [->|]; reflexivity.
    + apply List.Forall_forall. intros kv Hin.
      apply List.in_map_iff in Hin as ([k vs] & <- & Hin). cbn [fst].
      destruct (String.eqb_spec k c') as [->|Hk]; cbn [fst snd]; [congruence|].
      rewrite List.Forall_forall in Hf. exact (Hf (k, vs) Hin).
  - split.
    + rewrite List.map_app, List.existsb_app, He. reflexivity.
    + apply Forall_app. split; [exact Hf|]. repeat constructor. cbn [fst]. congruence.
Qed.

(** Assigning the value a column already holds changes nothing. *)
Lemma set_scalar_holds (c : string) (v : Pandas.Cell) (df : Pandas.DataFrame) :
  column_holds c v df -> Pandas.set_scalar c v df = df.
Proof.
  intros [He Hf]. unfold Pandas.set_scalar. rewrite He. destruct df as [n cols].
  cbn [Pandas.nrows Pandas.columns] in *. f_equal.
  induction cols as [|[k vs] cols IH]; [reflexivity|].
  inversion Hf as [|? ? Hk Hrest]; subst. cbn [map fst].
  destruct (String.eqb_spec k c) as [->|Hne].
  - cbn [fst snd] in Hk. rewrite (Hk eq_refl).
    f_equal. clear IH He Hk Hf.
    induction cols as [|[k' vs'] cols IH]; [reflexivity|].
    inversion Hrest as [|? ? Hk' Hrest']; subst. cbn [map fst].
    destruct (String.eqb_spec k' c) as [->|]; [|f_equal; now apply IH].
    cbn [fst snd] in Hk'. rewrite (Hk' eq_refl). f_equal. now apply IH.
  - f_equal. clear IH He Hk Hf.
    induction cols as [|[k' vs'] cols IH]; [reflexivity|].
    inversion Hrest as [|? ? Hk' Hrest']; subst. cbn [map fst].
    destruct (String.eqb_spec k' c) as [->|]; [|f_equal; now apply IH].
    cbn [fst snd] in Hk'. rewrite (Hk' eq_refl). f_equal. now apply IH.
Qed.

(** X21: transforming a transformed table gives it back: the two stamps are
    already there. *)
Theorem transform_data_idempotent (w : Sys.World) (df : Pandas.DataFrame) :
  Ckan.transform_data w (Ckan.transform_data w df) = Ckan.transform_data w df.
Proof.
  destruct (Sys.transform_raises w) eqn:E.
  - unfold Ckan.transform_data. now rewrite E.
  - rewrite !(transform_data_unfold w _ E).
    set (x := Pandas.set_scalar "source" (Pandas.Str "BHA") df).
    assert (Hs : column_holds "source" (Pandas.Str "BHA")
                   (Pandas.set_scalar "updated_at" (Pandas.Str (Sys.now w)) x)).
    { apply column_holds_set_other; [discriminate | apply column_holds_set]. }
    rewrite (set_scalar_holds "source" _ _ Hs).
    apply set_scalar_holds, column_holds_set.
Qed.

(** ** Files *)



(** X3: a download that returns a path has stored the bytes of the response
    under the data directory, at the file name of the candidate, and has
    left every other file, the table and the surroundings alone. *)
Theorem future_download_stores_bytes
    (w w' : Sys.World) (f : Future.FileInfo) (path : string) :
  Future.download_payment_standards_pdf w f = (w', Some path) ->
  path = Py.path_join Future.data_dir (Future.filename f)
  /\ (exists status content,
        Sys.http w (Future.url f) = Sys.Response status content
        /\ Sys.raise_for_status status = false
        /\ Sys.fs w' !! path = Some (Sys.Raw content))
  /\ (forall other, other <> path -> Sys.fs w' !! other = Sys.fs w !! other)
  /\ only_files_differ w w'.
Proof.
  intros H. pose proof (future_download_only_files _ _ _ _ H) as F.
  unfold Future.download_payment_standards_pdf in H.
  destruct (Sys.http w (Future.url f)) as [|status content]; [discriminate|].
  destruct (Sys.raise_for_status status) eqn:Er; [discriminate|].
  unfold Sys.write_file in H.
  destruct (Sys.unwritable w _); [discriminate|]. injection H as <- <-.
  split; [reflexivity|]. split; [|split; [|exact F]].
  - exists status, content. repeat split; [exact Er|]. cbn. apply lookup_insert_eq.
  - intros other Hne. cbn. now apply lookup_insert_ne.
Qed.

Lemma future_download_stores_bytes_witness :
  Py.path_join Future.data_dir "2025-Payment-Standards.pdf"
  = Py.path_join Future.data_dir (Future.filename candidate_2025)
  /\ (exists status content,
        Sys.http (Scenario.serving 200 Scenario.page_2025 ∅ [] [])
          (Future.url candidate_2025) = Sys.Response status content
        /\ Sys.raise_for_status status = false
        /\ Sys.fs (fst (Future.download_payment_standards_pdf
                          (Scenario.serving 200 Scenario.page_2025 ∅ [] [])
                          candidate_2025))
             !! Py.path_join Future.data_dir "2025-Payment-Standards.pdf"
           = Some (Sys.Raw content))
  /\ (forall other,
        other <> Py.path_join Future.data_dir "2025-Payment-Standards.pdf" ->
        Sys.fs (fst (Future.download_payment_standards_pdf
                       (Scenario.serving 200 Scenario.page_2025 ∅ [] [])
                       candidate_2025))
          !! other
        = Sys.fs (Scenario.serving 200 Scenario.page_2025 ∅ [] []) !! other)
  /\ only_files_differ (Scenario.serving 200 Scenario.page_2025 ∅ [] [])
       (fst (Future.download_payment_standards_pdf
               (Scenario.serving 200 Scenario.page_2025 ∅ [] [])
               candidate_2025)).
Proof.
  apply (future_download_stores_bytes
           (Scenario.serving 200 Scenario.page_2025 ∅ [] [])
           (fst (Future.download_payment_standards_pdf
                   (Scenario.serving 200 Scenario.page_2025 ∅ [] [])
                   candidate_2025))
           candidate_2025
           (Py.path_join Future.data_dir "2025-Payment-Standards.pdf")).
  rewrite (surjective_pairing (Future.download_payment_standards_pdf _ _)) at 1.
  f_equal; vm_compute; reflexivity.
Defined.

(** ** When the year-detecting pipeline reports success *)

(** X9: the run reports success exactly when a candidate is found, its
    document is stored locally and the marker file can be written: what
    the CSV, JSON and database writes did plays no part.  The exit code
    of the script is 0 exactly when, besides, the constructor went
    through. *)
Theorem future_run_success_iff (makedirs_raises : bool) (w : Sys.World) :
  (snd (Future.run_full_pipeline w) = true
   <-> exists latest,
         Future.find_latest_payment_standards w = Some latest
         /\ is_Some (snd (Future.download_payment_standards_pdf w latest))
         /\ Sys.unwritable w Future.current_year_file = false)
  /\ (snd (Future.main makedirs_raises w) = 0%Z
      <-> makedirs_raises = false
          /\ exists latest,
               Future.find_latest_payment_standards w = Some latest
               /\ is_Some (snd (Future.download_payment_standards_pdf w latest))
               /\ Sys.unwritable w Future.current_year_file = false).
Proof.
  assert (Hiff : snd (Future.run_full_pipeline w) = true
                 <-> exists latest,
                       Future.find_latest_payment_standards w = Some latest
                       /\ is_Some (snd (Future.download_payment_standards_pdf w latest))
                       /\ Sys.unwritable w Future.current_year_file = false).
  {
    split.
    - unfold Future.run_full_pipeline.
      destruct (Future.find_latest_payment_standards w) as [latest|]; [|discriminate].
      destruct (Future.download_payment_standards_pdf w latest) as [w1 [path|]] eqn:Ed;
        [|discriminate].
      pose proof (future_download_unwritable _ _ _ _ Ed) as U1.
      destruct (Future.extract_rent_data_from_pdf w1 path (Future.year latest))
        as [df|]; [|discriminate].
      cbv zeta.
      pose proof (future_save_to_csv_unwritable (Sys.tick w1) df (Future.year latest)) as U2.
      destruct (Future.save_to_csv (Sys.tick w1) df _) as [w2 ?].
      cbn [fst Sys.unwritable Sys.tick] in U2.
      pose proof (future_save_to_json_unwritable w2 df (Future.year latest)) as U3.
      destruct (Future.save_to_json w2 df _) as [w3 ?]. cbn [fst] in U3.
      pose proof (future_save_to_database_unwritable w3 df) as U4.
      destruct (Future.save_to_database w3 df) as [w4 ?]. cbn [fst] in U4.
      unfold Sys.write_file.
      destruct (Sys.unwritable w4 Future.current_year_file) eqn:U; [discriminate|].
      intros _. exists latest. split; [reflexivity|].
      split; [rewrite Ed; exists path; reflexivity|].
      now rewrite <- U1, <- U2, <- U3, <- U4.
    - intros (latest & Hf & [path Hp] & Hu).
      destruct (Future.download_payment_standards_pdf w latest) as [w1 r] eqn:Ed.
      cbn [snd] in Hp. subst r.
      exact (proj1 (future_run_whatever_database w w1 latest path Hf Ed Hu)). }
  split; [exact Hiff|].
  rewrite <- Hiff. unfold Future.main. destruct makedirs_raises.
  - cbn [snd]. split; [discriminate | intros [? _]; discriminate].
  - destruct (Future.run_full_pipeline w) as [w' b]. destruct b; cbn [snd].
    + split; [intros _; split; reflexivity | reflexivity].
    + split; [discriminate | intros [_ ?]; discriminate].
Qed.

(** ** The scripts side by side *)

(** A cell of a record is the cell of the first column of that name. *)
Lemma row_get_record (c : string) (i : nat) (cols : list (string * list Pandas.Cell)) :
  Pandas.row_get c (map (fun kv => (fst kv, nth i (snd kv) Pandas.Null)) cols)
  = match Pandas.column c cols with
    | Some cells => nth i cells Pandas.Null
    | None => Pandas.Null
    end.
Proof.
  induction cols as [|[k vs] cols IH]; [reflexivity|].
  cbn [map fst snd Pandas.row_get Pandas.column].
  now destruct (String.eqb k c).
Qed.

(** X22: [transform_data] labels every record [BHA], a label the DELETE of
    the year-detecting script does not match: rows so labelled are
    among those [save_to_database] of that script keeps. *)
Theorem catalog_rows_outlive_delete (w : Sys.World) (df : Pandas.DataFrame) :
  Sys.transform_raises w = false ->
  Forall (fun r => Pandas.row_get "source" r = Pandas.Str "BHA"
                   /\ matches_delete r = false)
         (Pandas.records (Ckan.transform_data w df)).
Proof.
  intros H. apply List.Forall_forall. intros r Hin. unfold Pandas.records in Hin.
  apply List.in_map_iff in Hin as (i & <- & Hi). apply List.in_seq in Hi.
  assert (E : Pandas.row_get "source"
                (map (fun kv => (fst kv, nth i (snd kv) Pandas.Null))
                     (Pandas.columns (Ckan.transform_data w df)))
              = Pandas.Str "BHA").
  { rewrite row_get_record.
    rewrite (transform_data_unfold w df H) in *.
    rewrite column_set_scalar_ne by discriminate.
    rewrite column_set_scalar_eq. apply nth_repeat_lt.
    cbn [Pandas.nrows Pandas.set_scalar] in Hi. lia. }
  split; [exact E|]. unfold matches_delete, Sys.source_like. now rewrite E.
Qed.

Lemma catalog_rows_outlive_delete_witness :
  Forall (fun r => Pandas.row_get "source" r = Pandas.Str "BHA"
                   /\ matches_delete r = false)
         (Pandas.records (Ckan.transform_data Scenario.offline Scenario.frame_with_source)).
Proof. apply catalog_rows_outlive_delete. reflexivity. Defined.
